(** * The Sleuth Kit, tsk3/img/img_open.c: opening a disk image

    A shallow embedding of [tsk_img_open], [tsk_img_open_utf8] and their
    wrappers, and the properties of format detection, dispatch,
    parameter validation and error reporting that hold of them.

    The file follows the C source top to bottom.  The format drivers
    ([raw_open], [split_open], [aff_open], [ewf_open]), the [close]
    function of a handle, [stat], [tsk_malloc] and the UTF-8 to UTF-16
    converter live in other translation units: they are taken as
    arbitrary functions over the global state (record [World]).  What the
    headers and the build configuration define (the [HAVE_LIB...] and
    platform macros, [TSK_ERRSTR_L], the integer values of enumerators)
    is the record [Build]. *)

From Stdlib Require Import ZArith NArith List String Ascii Bool Lia.
Import ListNotations.

Local Open Scope list_scope.
Local Open Scope string_scope.

(** ** Strings and printf conversions *)

(** [hay] holds [needle] as a contiguous run of characters. *)
Definition contains (needle hay : string) : Prop :=
  exists pre post, hay = pre ++ needle ++ post.

Fixpoint containsb (needle hay : string) : bool :=
  prefix needle hay ||
  match hay with
  | EmptyString => false
  | String _ rest => containsb needle rest
  end.

(** [n] copies of the character [c]. *)
Fixpoint replicate (n : nat) (c : ascii) : string :=
  match n with
  | O => EmptyString
  | S k => String c (replicate k c)
  end.

Definition digit_char (d : N) : ascii :=
  ascii_of_N (48 + d).

(** Decimal digits of [n], most significant first, pushed in front of
    [acc]; [fuel] bounds the number of digits produced. *)
Fixpoint dec_digits (fuel : nat) (n : N) (acc : string) : string :=
  match fuel with
  | O => acc
  | S f =>
      let acc' := String (digit_char (n mod 10)) acc in
      if (n <? 10)%N then acc' else dec_digits f (n / 10) acc'
  end.

Definition dec_of_N (n : N) : string :=
  dec_digits (S (N.to_nat (N.log2 n))) n EmptyString.

(** Reading decimal digits back: the number that a string of digits
    writes, continuing the number [acc]. *)
Definition digit_value (c : ascii) : N := (N_of_ascii c - 48)%N.

Fixpoint digits_value (s : string) (acc : N) : N :=
  match s with
  | EmptyString => acc
  | String c rest => digits_value rest (10 * acc + digit_value c)
  end.

(** The [%d] conversion of printf. *)
Definition fmt_d (z : Z) : string :=
  if (z <? 0)%Z then "-" ++ dec_of_N (Z.to_N (- z))
  else dec_of_N (Z.to_N z).

(** An [unsigned int] handed to [%d] is read back as a 32-bit [int]. *)
Definition uint_as_int (n : N) : Z :=
  let m := (n mod 2 ^ 32)%N in
  if (m <? 2 ^ 31)%N then Z.of_N m else (Z.of_N m - 2 ^ 32)%Z.

(** [snprintf(buf, size, ...)]: [text] is the fully formatted output and
    [old] the previous content of the buffer.  At most [size - 1]
    characters are stored; with [size = 0] nothing is written. *)
Definition snprintf (old : string) (size : nat) (text : string) : string :=
  match size with
  | O => old
  | S k => substring 0 k text
  end.

(** The four characters [\\.\] that start the path of a Windows device
    object, the literal of line 187. *)
Definition backslash : ascii := ascii_of_nat 92.

Definition win_object_prefix : string :=
  String backslash (String backslash (String "." (String backslash EmptyString))).

(** [strncmp(s1, s2, n) == 0]: the strings agree on their first [n]
    characters, a shorter string ending both. *)
Definition strncmp_eq0 (s1 s2 : string) (n : nat) : bool :=
  String.eqb (substring 0 n s1) (substring 0 n s2).

(** ** Data model *)

(** [TSK_IMG_TYPE_ENUM].  [type] is an [int] in C, so a value outside the
    enumeration can be passed: [TSK_IMG_TYPE_OTHER v], for an integer [v]
    that is the value of no enumerator (an integer that is one compares
    equal to it in C and is that enumerator). *)
Inductive TSK_IMG_TYPE_ENUM : Type :=
| TSK_IMG_TYPE_DETECT
| TSK_IMG_TYPE_RAW_SING
| TSK_IMG_TYPE_RAW_SPLIT
| TSK_IMG_TYPE_AFF_AFF
| TSK_IMG_TYPE_AFF_AFD
| TSK_IMG_TYPE_AFF_AFM
| TSK_IMG_TYPE_AFF_ANY
| TSK_IMG_TYPE_EWF_EWF
| TSK_IMG_TYPE_OTHER (v : Z).

Definition is_AFF_ANY (t : TSK_IMG_TYPE_ENUM) : bool :=
  match t with
  | TSK_IMG_TYPE_AFF_ANY => true
  | _ => false
  end.

(** The values [tsk_errno] takes.  [NO_ERROR] is 0; the others are the
    nonzero, pairwise distinct [TSK_ERR_...] macros of the base header:
    the ones this file assigns, and some that a driver may leave. *)
Inductive TSK_ERR : Type :=
| NO_ERROR
| TSK_ERR_IMG_NOFILE
| TSK_ERR_IMG_UNKTYPE
| TSK_ERR_IMG_UNSUPTYPE
| TSK_ERR_IMG_STAT
| TSK_ERR_IMG_ARG
| TSK_ERR_IMG_CONVERT
| TSK_ERR_IMG_OPEN
| TSK_ERR_IMG_MAGIC
| TSK_ERR_IMG_SEEK
| TSK_ERR_IMG_READ
| TSK_ERR_AUX_MALLOC.

(** [if (tsk_errno)] *)
Definition is_set (e : TSK_ERR) : bool :=
  match e with
  | NO_ERROR => false
  | _ => true
  end.

(** The process-wide error record: [tsk_errno], [tsk_errstr] (the
    primary message) and [tsk_errstr2] (the secondary message). *)
Record ErrCtx : Type := mkErrCtx {
  tsk_errno : TSK_ERR;
  tsk_errstr : string;
  tsk_errstr2 : string
}.

(** Modelled from the spec: [tsk_error_reset] is defined in the base
    library, not in this file.  The spec has every operation "reset" the
    Error Context, and the source relies on it to make [tsk_errno] 0
    ("we rely on tsk_errno, so make sure it is 0"): the code is cleared
    and both messages are emptied. *)
Definition tsk_error_reset (e : ErrCtx) : ErrCtx :=
  mkErrCtx NO_ERROR EmptyString EmptyString.

(** A path argument: a [const TSK_TCHAR *], [None] being [NULL]. *)
Definition TSK_TCHAR_ptr : Type := option string.

Definition is_NULL {A : Type} (p : option A) : bool :=
  match p with
  | None => true
  | Some _ => false
  end.

(** The characters behind a path pointer, as [%s] prints them. *)
Definition c_str (p : TSK_TCHAR_ptr) : string :=
  match p with
  | Some s => s
  | None => EmptyString
  end.

(** [images[i]]; the caller passes an array of [num_img] entries, and a
    read past the modelled array yields [NULL]. *)
Definition images_at (images : list TSK_TCHAR_ptr) (i : nat) : TSK_TCHAR_ptr :=
  nth i images None.

(** [TSK_IMG_INFO]: the format tag [itype] and the address of the
    structure, which tells handles apart. *)
Record TSK_IMG_INFO : Type := mkImg {
  itype : TSK_IMG_TYPE_ENUM;
  addr : nat
}.

(** What the headers and the configuration fix for one build. *)
Record Build : Type := mkBuild {
  HAVE_LIBAFFLIB : bool;
  HAVE_LIBEWF : bool;
  TSK_WIN32 : bool;
  CYGWIN : bool;                              (* __CYGWIN__ *)
  TSK_ERRSTR_L : nat;                         (* size of tsk_errstr *)
  TSKconversionOK : Z;                        (* TSKConversionResult *)
  img_type_value : TSK_IMG_TYPE_ENUM -> Z;    (* enumerator values *)
  sizeof_wchar_t : Z;
  sizeof_wchar_ptr : Z
}.

(** The integer [%d] prints for a [type] argument. *)
Definition type_as_int (b : Build) (t : TSK_IMG_TYPE_ENUM) : Z :=
  match t with
  | TSK_IMG_TYPE_OTHER v => v
  | _ => img_type_value b t
  end.

(** Calls that leave this file, in the order they are made. *)
Inductive Event : Type :=
| EvAffOpen (images : list TSK_TCHAR_ptr) (a_ssize : N)
| EvEwfOpen (num_img : Z) (images : list TSK_TCHAR_ptr) (a_ssize : N)
| EvRawOpen (image : TSK_TCHAR_ptr) (a_ssize : N)
| EvSplitOpen (num_img : Z) (images : list TSK_TCHAR_ptr) (a_ssize : N)
| EvClose (img : TSK_IMG_INFO)
| EvStat (image : TSK_TCHAR_ptr)
| EvConvert (image : string).

Definition is_backend_open (e : Event) : bool :=
  match e with
  | EvAffOpen _ _ | EvEwfOpen _ _ _ | EvRawOpen _ _ | EvSplitOpen _ _ _ => true
  | _ => false
  end.

Definition is_raw_or_split (e : Event) : bool :=
  match e with
  | EvRawOpen _ _ | EvSplitOpen _ _ _ => true
  | _ => false
  end.

(** ** Global state and the functions of other translation units *)

Section Machine.

(** Everything outside the error record that a driver or the operating
    system can read and change: files, the heap, C's [errno]. *)
Context {Sys : Type}.

Record Glob : Type := mkGlob {
  sys : Sys;
  ectx : ErrCtx
}.

Record World : Type := mkWorld {
  aff_open : list TSK_TCHAR_ptr -> N -> Glob -> option TSK_IMG_INFO * Glob;
  ewf_open : Z -> list TSK_TCHAR_ptr -> N -> Glob -> option TSK_IMG_INFO * Glob;
  raw_open : TSK_TCHAR_ptr -> N -> Glob -> option TSK_IMG_INFO * Glob;
  split_open : Z -> list TSK_TCHAR_ptr -> N -> Glob -> option TSK_IMG_INFO * Glob;
  (* img_info->close(img_info) *)
  img_close : TSK_IMG_INFO -> Glob -> Glob;
  (* TSTAT(path, &stat_buf): the returned int *)
  TSTAT : TSK_TCHAR_ptr -> Glob -> Z * Glob;
  (* strerror(errno) *)
  strerror_errno : Sys -> string;
  (* tsk_malloc(len) != NULL *)
  tsk_malloc : Z -> Glob -> bool * Glob;
  (* tsk_UTF8toUTF16: the status and the converted string *)
  tsk_UTF8toUTF16 : string -> Z * string
}.

Record State : Type := mkState {
  glob : Glob;
  trace : list Event
}.

(** ** A state monad for the C statements *)

Definition M (A : Type) : Type := State -> A * State.

Definition ret {A : Type} (a : A) : M A := fun s => (a, s).

Definition bind {A B : Type} (m : M A) (k : A -> M B) : M B :=
  fun s => let (a, s') := m s in k a s'.

Definition modify_ectx (f : ErrCtx -> ErrCtx) : M unit :=
  fun s => (tt, mkState (mkGlob (sys (glob s)) (f (ectx (glob s)))) (trace s)).

Definition get_tsk_errno : M TSK_ERR :=
  fun s => (tsk_errno (ectx (glob s)), s).

(** A call out of this file: it is recorded, then run on the globals. *)
Definition call {A : Type} (ev : Event) (f : Glob -> A * Glob) : M A :=
  fun s => let (a, g) := f (glob s) in (a, mkState g (trace s ++ [ev])%list).

(** A call that is not recorded. *)
Definition call_silent {A : Type} (f : Glob -> A * Glob) : M A :=
  fun s => let (a, g) := f (glob s) in (a, mkState g (trace s)).

End Machine.

Arguments Glob : clear implicits.
Arguments World : clear implicits.
Arguments State : clear implicits.
Arguments M : clear implicits.

Declare Scope tsk_scope.
Delimit Scope tsk_scope with tsk.
Notation "x <- c1 ;; c2" := (bind c1 (fun x => c2))
  (at level 61, c1 at next level, right associativity) : tsk_scope.
Notation "c1 ;; c2" := (bind c1 (fun _ => c2))
  (at level 61, right associativity) : tsk_scope.

Local Open Scope tsk_scope.

(** ** img_open.c *)

Section ImgOpen.

Context {Sys : Type}.
Variable b : Build.
Variable W : World Sys.

(** [tsk_error_reset();] *)
Definition error_reset : M Sys unit := modify_ectx tsk_error_reset.

(** [tsk_errno = e;] *)
Definition set_tsk_errno (e : TSK_ERR) : M Sys unit :=
  modify_ectx (fun c => mkErrCtx e (tsk_errstr c) (tsk_errstr2 c)).

(** [snprintf(tsk_errstr, TSK_ERRSTR_L, ...);] with formatted output [text] *)
Definition snprintf_tsk_errstr (text : string) : M Sys unit :=
  modify_ectx (fun c =>
    mkErrCtx (tsk_errno c) (snprintf (tsk_errstr c) (TSK_ERRSTR_L b) text)
             (tsk_errstr2 c)).

(** [tsk_errstr[0] = '\0';] *)
Definition clear_tsk_errstr : M Sys unit :=
  modify_ectx (fun c => mkErrCtx (tsk_errno c) EmptyString (tsk_errstr2 c)).

(** [tsk_errstr2[0] = '\0';] *)
Definition clear_tsk_errstr2 : M Sys unit :=
  modify_ectx (fun c => mkErrCtx (tsk_errno c) (tsk_errstr c) EmptyString).

(** [img->close(img);] *)
Definition close (img : TSK_IMG_INFO) : M Sys unit :=
  call (EvClose img) (fun g => (tt, img_close W img g)).

(** The candidate kept during detection: the variables [set] and
    [img_set], which are assigned together and so are [NULL] together. *)
Record Candidate : Type := mkCandidate {
  set : string;
  img_set : TSK_IMG_INFO
}.

(** Lines 125-140, the [#if HAVE_LIBAFFLIB] block of autodetection. *)
Definition detect_aff (images : list TSK_TCHAR_ptr) (a_ssize : N)
  : M Sys (option Candidate) :=
  if HAVE_LIBAFFLIB b then
    r <- call (EvAffOpen images a_ssize) (aff_open W images a_ssize) ;;
    match r with
    | Some img_info =>
        (* we don't allow the "ANY" when autodetect is used *)
        if is_AFF_ANY (itype img_info) then
          close img_info ;;
          ret None
        else
          ret (Some (mkCandidate "AFF" img_info))
    | None =>
        error_reset ;;
        ret None
    end
  else ret None.

(** Lines 142-160, the [#if HAVE_LIBEWF] block.  [inl tt] is the
    [return NULL] of the ambiguous case; [inr c] carries [set] and
    [img_set] on to line 161. *)
Definition detect_ewf (num_img : Z) (images : list TSK_TCHAR_ptr)
  (a_ssize : N) (cand : option Candidate) : M Sys (unit + option Candidate) :=
  if HAVE_LIBEWF b then
    r <- call (EvEwfOpen num_img images a_ssize)
              (ewf_open W num_img images a_ssize) ;;
    match r with
    | Some img_info =>
        match cand with
        | None => ret (inr (Some (mkCandidate "EWF" img_info)))
        | Some c =>
            close (img_set c) ;;
            close img_info ;;
            error_reset ;;
            set_tsk_errno TSK_ERR_IMG_UNKTYPE ;;
            snprintf_tsk_errstr ("EWF or " ++ set c) ;;
            ret (inl tt)
        end
    | None =>
        error_reset ;;
        ret (inr cand)
    end
  else ret (inr cand).

(** Lines 206-209: unknown type, both messages emptied. *)
Definition fail_unktype : M Sys (option TSK_IMG_INFO) :=
  set_tsk_errno TSK_ERR_IMG_UNKTYPE ;;
  clear_tsk_errstr ;;
  clear_tsk_errstr2 ;;
  ret None.

(** Lines 183-209: "To improve the error message, verify the file can be
    read."  The test of the device-object prefix is compiled on
    [TSK_WIN32] and [__CYGWIN__] only. *)
Definition detect_stat (images : list TSK_TCHAR_ptr) : M Sys (option TSK_IMG_INFO) :=
  r <- call (EvStat (images_at images 0)) (TSTAT W (images_at images 0)) ;;
  if (r <? 0)%Z then
    if (TSK_WIN32 b || CYGWIN b)
       && strncmp_eq0 win_object_prefix (c_str (images_at images 0)) 4
    then fail_unktype
    else
      error_reset ;;
      set_tsk_errno TSK_ERR_IMG_STAT ;;
      reason <- (fun s => (strerror_errno W (sys (glob s)), s)) ;;
      snprintf_tsk_errstr (c_str (images_at images 0) ++ " : " ++ reason) ;;
      ret None
  else fail_unktype.

(** Lines 165-181: "We'll use the raw format". *)
Definition detect_raw (num_img : Z) (images : list TSK_TCHAR_ptr)
  (a_ssize : N) : M Sys (option TSK_IMG_INFO) :=
  r <- (if (num_img =? 1)%Z then
          call (EvRawOpen (images_at images 0) a_ssize)
               (raw_open W (images_at images 0) a_ssize)
        else
          call (EvSplitOpen num_img images a_ssize)
               (split_open W num_img images a_ssize)) ;;
  match r with
  | Some img_info => ret (Some img_info)
  | None =>
      e <- get_tsk_errno ;;
      if is_set e then ret None else detect_stat images
  end.

(** Lines 161-209, once the non-raw formats have been tried. *)
Definition detect_finish (num_img : Z) (images : list TSK_TCHAR_ptr)
  (a_ssize : N) (cand : option Candidate) : M Sys (option TSK_IMG_INFO) :=
  match cand with
  | Some c => ret (Some (img_set c))
  | None => detect_raw num_img images a_ssize
  end.

(** Lines 142-209. *)
Definition detect_from_ewf (num_img : Z) (images : list TSK_TCHAR_ptr)
  (a_ssize : N) (cand : option Candidate) : M Sys (option TSK_IMG_INFO) :=
  r <- detect_ewf num_img images a_ssize cand ;;
  match r with
  | inl _ => ret None
  | inr cand' => detect_finish num_img images a_ssize cand'
  end.

(** Lines 114-210, the body of [if (type == TSK_IMG_TYPE_DETECT)]. *)
Definition detect (num_img : Z) (images : list TSK_TCHAR_ptr) (a_ssize : N)
  : M Sys (option TSK_IMG_INFO) :=
  (* we rely on tsk_errno, so make sure it is 0 *)
  error_reset ;;
  cand <- detect_aff images a_ssize ;;
  detect_from_ewf num_img images a_ssize cand.

(** The [default:] of the switch, lines 253-257. *)
Definition fail_unsuptype (type : TSK_IMG_TYPE_ENUM) : M Sys (option TSK_IMG_INFO) :=
  error_reset ;;
  set_tsk_errno TSK_ERR_IMG_UNSUPTYPE ;;
  snprintf_tsk_errstr (fmt_d (type_as_int b type)) ;;
  ret None.

(** Lines 217-260, the switch on a given type.  The AFF and EWF cases
    exist only in a build with the library. *)
Definition open_as (num_img : Z) (images : list TSK_TCHAR_ptr)
  (type : TSK_IMG_TYPE_ENUM) (a_ssize : N) : M Sys (option TSK_IMG_INFO) :=
  match type with
  | TSK_IMG_TYPE_RAW_SING =>
      if (1 <? num_img)%Z then
        call (EvSplitOpen num_img images a_ssize)
             (split_open W num_img images a_ssize)
      else
        call (EvRawOpen (images_at images 0) a_ssize)
             (raw_open W (images_at images 0) a_ssize)
  | TSK_IMG_TYPE_RAW_SPLIT =>
      if (num_img =? 1)%Z then
        call (EvRawOpen (images_at images 0) a_ssize)
             (raw_open W (images_at images 0) a_ssize)
      else
        call (EvSplitOpen num_img images a_ssize)
             (split_open W num_img images a_ssize)
  | TSK_IMG_TYPE_AFF_AFF
  | TSK_IMG_TYPE_AFF_AFD
  | TSK_IMG_TYPE_AFF_AFM
  | TSK_IMG_TYPE_AFF_ANY =>
      if HAVE_LIBAFFLIB b then
        call (EvAffOpen images a_ssize) (aff_open W images a_ssize)
      else fail_unsuptype type
  | TSK_IMG_TYPE_EWF_EWF =>
      if HAVE_LIBEWF b then
        call (EvEwfOpen num_img images a_ssize)
             (ewf_open W num_img images a_ssize)
      else fail_unsuptype type
  | _ => fail_unsuptype type
  end.

(** [tsk_img_open], lines 73-261.  The lines printed on [stderr] under
    [tsk_verbose] touch none of the state kept here and are left out. *)
Definition tsk_img_open (num_img : Z) (images : list TSK_TCHAR_ptr)
  (type : TSK_IMG_TYPE_ENUM) (a_ssize : N) : M Sys (option TSK_IMG_INFO) :=
  (* Get rid of any old error messages laying around *)
  error_reset ;;
  if (num_img =? 0)%Z || is_NULL (images_at images 0) then
    error_reset ;;
    set_tsk_errno TSK_ERR_IMG_NOFILE ;;
    snprintf_tsk_errstr "tsk_img_open" ;;
    ret None
  else if (0 <? a_ssize)%N && (a_ssize <? 512)%N then
    error_reset ;;
    set_tsk_errno TSK_ERR_IMG_ARG ;;
    snprintf_tsk_errstr
      ("sector size is less than 512 bytes (" ++ fmt_d (uint_as_int a_ssize) ++ ")") ;;
    ret None
  else if negb (a_ssize mod 512 =? 0)%N then
    error_reset ;;
    set_tsk_errno TSK_ERR_IMG_ARG ;;
    snprintf_tsk_errstr
      ("sector size is not a multiple of 512 (" ++ fmt_d (uint_as_int a_ssize) ++ ")") ;;
    ret None
  else
    match type with
    | TSK_IMG_TYPE_DETECT => detect num_img images a_ssize
    | _ => open_as num_img images type a_ssize
    end.

(** [tsk_img_open_sing], lines 46-52. *)
Definition tsk_img_open_sing (a_image : TSK_TCHAR_ptr)
  (type : TSK_IMG_TYPE_ENUM) (a_ssize : N) : M Sys (option TSK_IMG_INFO) :=
  tsk_img_open 1 [a_image] type a_ssize.

(** The conversion loop of [tsk_img_open_utf8], lines 320-348, with [n]
    rounds left at index [i]; [images16] holds what is converted so far.
    [None] is the [goto tsk_utf8_cleanup]. [strlen] reads [images[i]]:
    the caller passes [num_img] strings. *)
Fixpoint utf8_to_utf16 (n i : nat) (images images16 : list TSK_TCHAR_ptr)
  : M Sys (option (list TSK_TCHAR_ptr)) :=
  match n with
  | O => ret (Some images16)
  | S n' =>
      let image := c_str (images_at images i) in
      let ilen := Z.of_nat (String.length image) in
      ok <- call_silent (tsk_malloc W ((ilen + 1) * sizeof_wchar_t b)%Z) ;;
      if negb ok then ret None
      else
        r <- call (EvConvert image) (fun g => (tsk_UTF8toUTF16 W image, g)) ;;
        let retval2 := fst r in
        if negb (retval2 =? TSKconversionOK b)%Z then
          set_tsk_errno TSK_ERR_IMG_CONVERT ;;
          snprintf_tsk_errstr
            ("tsk_img_open_utf8: Error converting image " ++ image ++ " "
             ++ fmt_d retval2) ;;
          ret None
        else
          utf8_to_utf16 n' (S i) images (images16 ++ [Some (snd r)])%list
  end.

(** [tsk_img_open_utf8], lines 300-365.  Under [TSK_WIN32] the paths are
    converted first; the buffers freed at [tsk_utf8_cleanup] are not part
    of the state kept here. *)
Definition tsk_img_open_utf8 (num_img : Z) (images : list TSK_TCHAR_ptr)
  (type : TSK_IMG_TYPE_ENUM) (a_ssize : N) : M Sys (option TSK_IMG_INFO) :=
  if TSK_WIN32 b then
    ok <- call_silent (tsk_malloc W (sizeof_wchar_ptr b * num_img)%Z) ;;
    if negb ok then ret None
    else
      r <- utf8_to_utf16 (Z.to_nat num_img) 0 images [] ;;
      match r with
      | None => ret None
      | Some images16 => tsk_img_open num_img images16 type a_ssize
      end
  else tsk_img_open num_img images type a_ssize.

(** [tsk_img_open_utf8_sing], lines 277-283. *)
Definition tsk_img_open_utf8_sing (a_image : TSK_TCHAR_ptr)
  (type : TSK_IMG_TYPE_ENUM) (a_ssize : N) : M Sys (option TSK_IMG_INFO) :=
  tsk_img_open_utf8 1 [a_image] type a_ssize.

(** [tsk_img_close], lines 458-465. *)
Definition tsk_img_close (a_img_info : option TSK_IMG_INFO) : M Sys unit :=
  match a_img_info with
  | None => ret tt
  | Some img => close img
  end.

End ImgOpen.

(** ** Concrete builds and worlds *)

Module Scenario.

(** Enumerator values for the examples: one bit each, as flags go. *)
Definition type_value (t : TSK_IMG_TYPE_ENUM) : Z :=
  match t with
  | TSK_IMG_TYPE_DETECT => 0
  | TSK_IMG_TYPE_RAW_SING => 1
  | TSK_IMG_TYPE_RAW_SPLIT => 2
  | TSK_IMG_TYPE_AFF_AFF => 4
  | TSK_IMG_TYPE_AFF_AFD => 8
  | TSK_IMG_TYPE_AFF_AFM => 16
  | TSK_IMG_TYPE_AFF_ANY => 32
  | TSK_IMG_TYPE_EWF_EWF => 64
  | TSK_IMG_TYPE_OTHER v => v
  end.

(** A Unix build with both libraries, and a 512-byte error buffer. *)
Definition unix_full : Build :=
  mkBuild true true false false 512 0 type_value 4 8.

(** A Unix build without AFF and EWF support. *)
Definition unix_plain : Build :=
  mkBuild false false false false 512 0 type_value 4 8.

(** A Windows build with both libraries. *)
Definition win32_full : Build :=
  mkBuild true true true false 512 0 type_value 2 4.

Definition aff_img : TSK_IMG_INFO := mkImg TSK_IMG_TYPE_AFF_AFF 1.
Definition aff_any_img : TSK_IMG_INFO := mkImg TSK_IMG_TYPE_AFF_ANY 2.
Definition ewf_img : TSK_IMG_INFO := mkImg TSK_IMG_TYPE_EWF_EWF 3.
Definition raw_img : TSK_IMG_INFO := mkImg TSK_IMG_TYPE_RAW_SING 4.
Definition split_img : TSK_IMG_INFO := mkImg TSK_IMG_TYPE_RAW_SPLIT 5.

(** Driver behaviours over a world without further state. *)
Definition G : Type := Glob unit.

Definition gives (img : TSK_IMG_INFO) (g : G) : option TSK_IMG_INFO * G :=
  (Some img, g).

Definition declines (g : G) : option TSK_IMG_INFO * G := (None, g).

Definition fails_with (e : TSK_ERR) (msg : string) (g : G)
  : option TSK_IMG_INFO * G :=
  (None, mkGlob (sys g) (mkErrCtx e msg EmptyString)).

(** UTF-8 conversion that rejects the bytes 128 to 255 with status 3
    ([TSKsourceIllegal]) and copies anything else. *)
Fixpoint all_ascii (s : string) : bool :=
  match s with
  | EmptyString => true
  | String c rest => (N_of_ascii c <? 128)%N && all_ascii rest
  end.

Definition convert (s : string) : Z * string :=
  if all_ascii s then (0%Z, s) else (3%Z, EmptyString).

Definition world
  (aff ewf raw split : G -> option TSK_IMG_INFO * G)
  (stat_ret : Z) (reason : string) : World unit :=
  mkWorld
    (fun _ _ => aff) (fun _ _ _ => ewf) (fun _ _ => raw) (fun _ _ _ => split)
    (fun _ g => g)
    (fun _ g => (stat_ret, g))
    (fun _ => reason)
    (fun _ g => (true, g))
    convert.

(** Nothing recognises the image; [stat] succeeds. *)
Definition quiet : World unit :=
  world declines declines declines declines 0 EmptyString.

(** Only the raw and split drivers open the image. *)
Definition only_raw : World unit :=
  world declines declines (gives raw_img) (gives split_img) 0 EmptyString.

(** The AFF probe fails on a real error; the raw driver opens the file. *)
Definition aff_breaks : World unit :=
  world (fails_with TSK_ERR_IMG_OPEN "aff_open") declines
        (gives raw_img) (gives split_img) 0 EmptyString.

(** Both AFF and EWF recognise the image. *)
Definition both_match : World unit :=
  world (gives aff_img) (gives ewf_img) (gives raw_img) (gives split_img) 0 EmptyString.

(** Only AFF, resp. only EWF, recognises the image. *)
Definition only_aff : World unit :=
  world (gives aff_img) declines (gives raw_img) (gives split_img) 0 EmptyString.

Definition only_ewf : World unit :=
  world declines (gives ewf_img) (gives raw_img) (gives split_img) 0 EmptyString.

(** AFF answers with a handle of the unspecified type; raw opens. *)
Definition aff_any : World unit :=
  world (gives aff_any_img) declines (gives raw_img) (gives split_img) 0 EmptyString.

(** Nothing recognises the image and [stat] fails on it. *)
Definition missing_file : World unit :=
  world declines declines declines declines (-1) "No such file or directory".

(** A file name of 520 characters: [stat] fails on it. *)
Definition long_name : string := replicate 520 "a"%char.

Definition name_too_long : World unit :=
  world declines declines declines declines (-1) "File name too long".

(** A path of 521 bytes that is not UTF-8: its first byte is 200. *)
Definition long_bad_utf8 : string := String (ascii_of_nat 200) long_name.

(** A short path that is not UTF-8. *)
Definition bad_utf8 : string := String (ascii_of_nat 200) "x.dd".

(** A Unix build with AFFLIB and without LIBEWF. *)
Definition unix_aff_only : Build :=
  mkBuild true false false false 512 0 type_value 4 8.

(** A driver that hands out a handle and leaves an error code behind. *)
Definition gives_leaving (img : TSK_IMG_INFO) (e : TSK_ERR) (msg : string)
  (g : G) : option TSK_IMG_INFO * G :=
  (Some img, mkGlob (sys g) (mkErrCtx e msg EmptyString)).

(** AFF answers with a handle of the unspecified type and leaves
    [TSK_ERR_IMG_MAGIC]; nothing else recognises the image. *)
Definition aff_any_dirty : World unit :=
  world (gives_leaving aff_any_img TSK_ERR_IMG_MAGIC "aff_open")
        declines declines declines 0 EmptyString.

(** The same, with AFF declining and leaving the same error. *)
Definition aff_declines_dirty : World unit :=
  world (fails_with TSK_ERR_IMG_MAGIC "aff_open")
        declines declines declines 0 EmptyString.

Definition start : State unit :=
  mkState (mkGlob tt (mkErrCtx NO_ERROR EmptyString EmptyString)) [].

(** A state in which an earlier call has left an error behind. *)
Definition stale : State unit :=
  mkState (mkGlob tt (mkErrCtx TSK_ERR_IMG_READ "old" "older")) [].

End Scenario.

(** ** Vocabulary of the properties *)

Section Vocabulary.

Context {Sys : Type}.

(** The globals after [tsk_error_reset()]. *)
Definition reset_glob (g : Glob Sys) : Glob Sys :=
  mkGlob (sys g) (tsk_error_reset (ectx g)).

Definition reset_state (s : State Sys) : State Sys :=
  mkState (reset_glob (glob s)) (trace s).

(** The error record a caller reads after the call. *)
Definition err_code (s : State Sys) : TSK_ERR := tsk_errno (ectx (glob s)).
Definition err_msg (s : State Sys) : string := tsk_errstr (ectx (glob s)).
Definition err_msg2 (s : State Sys) : string := tsk_errstr2 (ectx (glob s)).

(** The calls made between state [s] and state [s']. *)
Definition calls_between (s s' : State Sys) (evs : list Event) : Prop :=
  trace s' = (trace s ++ evs)%list.

(** No driver was called between [s] and [s']. *)
Definition no_backend_touched (s s' : State Sys) : Prop :=
  exists evs, calls_between s s' evs /\
              forallb (fun e => negb (is_backend_open e)) evs = true.


(** The open that the call [ev] records, run by the drivers of [W] on the
    globals [g]; [None] for a call that is no open. *)
Definition driver_call (W : World Sys) (ev : Event) (g : Glob Sys)
  : option (option TSK_IMG_INFO * Glob Sys) :=
  match ev with
  | EvAffOpen im ss => Some (aff_open W im ss g)
  | EvEwfOpen n im ss => Some (ewf_open W n im ss g)
  | EvRawOpen p ss => Some (raw_open W p ss g)
  | EvSplitOpen n im ss => Some (split_open W n im ss g)
  | _ => None
  end.

(** The world [W] with another AFF driver. *)
Definition with_aff_open (W : World Sys)
  (f : list TSK_TCHAR_ptr -> N -> Glob Sys -> option TSK_IMG_INFO * Glob Sys)
  : World Sys :=
  mkWorld f (ewf_open W) (raw_open W) (split_open W) (img_close W)
          (TSTAT W) (strerror_errno W) (tsk_malloc W) (tsk_UTF8toUTF16 W).

(** The computation [m] reads nothing of the record of calls and only
    adds to it. *)
Definition framed {A : Type} (m : M Sys A) : Prop :=
  forall (g : Glob Sys) (tr : list Event),
    m (mkState g tr) =
    (fst (m (mkState g [])),
     mkState (glob (snd (m (mkState g [])))) (tr ++ trace (snd (m (mkState g []))))%list).

End Vocabulary.

(** The text that [tsk_img_open_utf8] formats for [TSK_ERR_IMG_CONVERT],
    before it is cut to the buffer. *)
Definition convert_text (image : string) (retval2 : Z) : string :=
  "tsk_img_open_utf8: Error converting image " ++ image ++ " "
  ++ fmt_d retval2.

(** The conversions of the paths [images[i]], ..., [images[i+k-1]]. *)
Definition paths_from (images : list TSK_TCHAR_ptr) (i k : nat) : list string :=
  map (fun j => c_str (images_at images j)) (seq i k).

Definition is_convert (e : Event) : bool :=
  match e with
  | EvConvert _ => true
  | _ => false
  end.

Definition is_aff_open (e : Event) : bool :=
  match e with
  | EvAffOpen _ _ => true
  | _ => false
  end.

Definition is_ewf_open (e : Event) : bool :=
  match e with
  | EvEwfOpen _ _ _ => true
  | _ => false
  end.

Definition is_stat (e : Event) : bool :=
  match e with
  | EvStat _ => true
  | _ => false
  end.

(** How many of the calls [evs] satisfy [f]. *)
Definition count (f : Event -> bool) (evs : list Event) : nat :=
  List.length (filter f evs).

Definition is_close (e : Event) : bool :=
  match e with
  | EvClose _ => true
  | _ => false
  end.

(** The enumerators of [TSK_IMG_TYPE_ENUM] that this file names. *)
Definition enumerators : list TSK_IMG_TYPE_ENUM :=
  [TSK_IMG_TYPE_DETECT; TSK_IMG_TYPE_RAW_SING; TSK_IMG_TYPE_RAW_SPLIT;
   TSK_IMG_TYPE_AFF_AFF; TSK_IMG_TYPE_AFF_AFD; TSK_IMG_TYPE_AFF_AFM;
   TSK_IMG_TYPE_AFF_ANY; TSK_IMG_TYPE_EWF_EWF].

(** The integer [v] is the value of none of these enumerators: as a
    [type] it compares equal to no label of the switch and not to
    [TSK_IMG_TYPE_DETECT]. *)
Definition outside_enumeration (b : Build) (v : Z) : Prop :=
  Forall (fun t => img_type_value b t <> v) enumerators.

(** A [type] as C has it: an enumerator, or an integer that is the value
    of none. *)
Definition proper_type (b : Build) (type : TSK_IMG_TYPE_ENUM) : Prop :=
  match type with
  | TSK_IMG_TYPE_OTHER v => outside_enumeration b v
  | _ => True
  end.

Definition is_split (e : Event) : bool :=
  match e with
  | EvSplitOpen _ _ _ => true
  | _ => false
  end.

(** The call [e] hands on what the caller of [tsk_img_open] passed: the
    path array, the count and the sector size as they are, the first path
    to [raw_open] and to [stat]. *)
Definition passes_arguments (num_img : Z) (images : list TSK_TCHAR_ptr)
  (a_ssize : N) (e : Event) : Prop :=
  match e with
  | EvAffOpen im ss => im = images /\ ss = a_ssize
  | EvEwfOpen n im ss => n = num_img /\ im = images /\ ss = a_ssize
  | EvRawOpen p ss => p = images_at images 0 /\ ss = a_ssize
  | EvSplitOpen n im ss => n = num_img /\ im = images /\ ss = a_ssize
  | EvClose _ => True
  | EvStat p => p = images_at images 0
  | EvConvert _ => False
  end.

(** The call [e], if it closes a handle, closes one of the unspecified
    AFF type. *)
Definition closes_only_any (e : Event) : Prop :=
  match e with
  | EvClose img => itype img = TSK_IMG_TYPE_AFF_ANY
  | _ => True
  end.

(** The types that the switch of [tsk_img_open] has a case for in the
    build [b].  [TSK_IMG_TYPE_OTHER v] is read as an integer that is the
    value of no enumerator ([proper_type]), which falls to [default:]. *)
Definition has_case (b : Build) (type : TSK_IMG_TYPE_ENUM) : bool :=
  match type with
  | TSK_IMG_TYPE_RAW_SING | TSK_IMG_TYPE_RAW_SPLIT => true
  | TSK_IMG_TYPE_AFF_AFF | TSK_IMG_TYPE_AFF_AFD
  | TSK_IMG_TYPE_AFF_AFM | TSK_IMG_TYPE_AFF_ANY => HAVE_LIBAFFLIB b
  | TSK_IMG_TYPE_EWF_EWF => HAVE_LIBEWF b
  | TSK_IMG_TYPE_DETECT | TSK_IMG_TYPE_OTHER _ => false
  end.

(** A sector size the validation of [tsk_img_open] turns down: nonzero,
    and below 512 or not a multiple of 512. *)
Definition bad_sector_size (a_ssize : N) : Prop :=
  a_ssize <> 0%N /\ ((a_ssize < 512)%N \/ (a_ssize mod 512)%N <> 0%N).

(** ** Strings: containment, truncation, decimal digits *)

Lemma contains_prefix (needle rest : string) :
  contains needle (needle ++ rest).
Proof.
  exists EmptyString, rest. reflexivity.
Qed.

Lemma contains_cons (needle hay : string) (c : ascii) :
  contains needle hay -> contains needle (String c hay).
Proof.
  intros (pre & post & ->). exists (String c pre), post. reflexivity.
Qed.

Lemma contains_app_l (needle pre hay : string) :
  contains needle hay -> contains needle (pre ++ hay).
Proof.
  induction pre as [|c pre IH]; intros H; simpl; [exact H|].
  apply contains_cons, IH, H.
Qed.

Lemma prefix_app_iff (p s : string) :
  prefix p s = true <-> exists rest, s = p ++ rest.
Proof.
  revert s. induction p as [|c p IH]; intros s.
  - split; [intros _; exists s; reflexivity | intros _; destruct s; reflexivity].
  - destruct s as [|d s]; simpl.
    + split; [discriminate | intros (rest & H); discriminate].
    + destruct (ascii_dec c d) as [->|Hne].
      * rewrite IH. split; intros (rest & H); exists rest.
        -- now rewrite H.
        -- now inversion H.
      * split; [discriminate|]. intros (rest & H). inversion H. congruence.
Qed.

Lemma containsb_correct (needle hay : string) :
  containsb needle hay = true <-> contains needle hay.
Proof.
  induction hay as [|c hay IH].
  - cbn [containsb]. rewrite orb_false_r, prefix_app_iff. split.
    + intros (rest & H). exists EmptyString, rest. exact H.
    + intros (pre & post & H). destruct pre; [|discriminate].
      exists post. exact H.
  - cbn [containsb]. rewrite orb_true_iff, IH, prefix_app_iff. split.
    + intros [(rest & H)|H].
      * exists EmptyString, rest. exact H.
      * apply contains_cons, H.
    + intros (pre & post & H). destruct pre as [|d pre].
      * left. exists post. exact H.
      * right. inversion H. exists pre, post. reflexivity.
Qed.

Lemma not_contains (needle hay : string) :
  containsb needle hay = false -> ~ contains needle hay.
Proof.
  intros Hb Hc. apply containsb_correct in Hc. congruence.
Qed.

Lemma append_empty_r_local (s : string) : s ++ EmptyString = s.
Proof.
  induction s as [|c s IH]; simpl; [reflexivity | now rewrite IH].
Qed.

Lemma contains_refl (s : string) : contains s s.
Proof.
  exists EmptyString, EmptyString. simpl. now rewrite append_empty_r_local.
Qed.

Lemma substring_whole (s : string) (k : nat) :
  String.length s <= k -> substring 0 k s = s.
Proof.
  revert k. induction s as [|c s IH]; intros k Hk.
  - destruct k; reflexivity.
  - destruct k as [|k]; simpl in Hk; [lia|].
    simpl. f_equal. apply IH. lia.
Qed.

(** A text shorter than the buffer is stored whole. *)
Lemma snprintf_fits (old text : string) (size : nat) :
  String.length text < size -> snprintf old size text = text.
Proof.
  intros H. destruct size as [|k]; [lia|].
  simpl. apply substring_whole. lia.
Qed.

Lemma length_append (s t : string) :
  String.length (s ++ t) = String.length s + String.length t.
Proof.
  induction s as [|c s IH]; simpl; [reflexivity | now rewrite IH].
Qed.

Lemma dec_digits_length (fuel : nat) :
  forall (k : nat) (n : N) (acc : string),
    1 <= k -> (n < 10 ^ N.of_nat k)%N ->
    String.length (dec_digits fuel n acc) <= k + String.length acc.
Proof.
  induction fuel as [|f IH]; intros k n acc Hk Hn; simpl; [lia|].
  destruct (N.ltb_spec n 10) as [Hlt|Hge]; simpl; [lia|].
  destruct k as [|k]; [lia|].
  destruct k as [|k].
  - simpl in Hn. lia.
  - specialize (IH (S k) (n / 10)%N (String (digit_char (n mod 10)) acc)).
    simpl String.length in IH.
    assert (n / 10 < 10 ^ N.of_nat (S k))%N.
    { apply N.Div0.div_lt_upper_bound.
      replace (N.of_nat (S (S k))) with (N.succ (N.of_nat (S k))) in Hn by lia.
      rewrite N.pow_succ_r' in Hn. exact Hn. }
    specialize (IH ltac:(lia) H). lia.
Qed.

Lemma append_assoc_local (s t u : string) : (s ++ t) ++ u = s ++ (t ++ u).
Proof.
  induction s as [|c s IH]; simpl; [reflexivity | now rewrite IH].
Qed.

Lemma digits_value_app (s t : string) (v : N) :
  digits_value (s ++ t) v = digits_value t (digits_value s v).
Proof.
  revert v. induction s as [|c s IH]; intros v; simpl; [reflexivity|].
  apply IH.
Qed.

Lemma digit_value_char (d : N) : (d < 10)%N -> digit_value (digit_char d) = d.
Proof.
  intros H. unfold digit_value, digit_char.
  rewrite N_ascii_embedding by lia. lia.
Qed.

Lemma dec_digits_acc (fuel : nat) :
  forall n acc, dec_digits fuel n acc = dec_digits fuel n EmptyString ++ acc.
Proof.
  induction fuel as [|f IH]; intros n acc; simpl; [reflexivity|].
  destruct (n <? 10)%N; [reflexivity|].
  rewrite (IH _ (String _ acc)), (IH _ (String _ EmptyString)).
  rewrite append_assoc_local. reflexivity.
Qed.

(** With enough fuel the digits produced are those of [n]. *)
Lemma dec_digits_value (fuel : nat) :
  forall n, (n < 10 ^ N.of_nat fuel)%N ->
            digits_value (dec_digits fuel n EmptyString) 0 = n.
Proof.
  induction fuel as [|f IH]; intros n Hn.
  - simpl in Hn. simpl. lia.
  - cbn [dec_digits].
    destruct (N.ltb_spec n 10) as [Hlt|Hge].
    + cbn [digits_value]. rewrite N.mod_small by exact Hlt.
      rewrite digit_value_char by exact Hlt. lia.
    + rewrite dec_digits_acc, digits_value_app.
      rewrite IH.
      * cbn [digits_value].
        rewrite digit_value_char by (apply N.mod_lt; lia).
        rewrite (N.div_mod n 10) at 3 by lia. lia.
      * apply N.Div0.div_lt_upper_bound.
        replace (N.of_nat (S f)) with (N.succ (N.of_nat f)) in Hn by lia.
        rewrite N.pow_succ_r' in Hn. exact Hn.
Qed.

(** [dec_of_N] is the decimal notation of [n]: read back, it gives [n]. *)
Lemma dec_of_N_value (n : N) : digits_value (dec_of_N n) 0 = n.
Proof.
  unfold dec_of_N. apply dec_digits_value.
  destruct (N.eq_dec n 0) as [->|Hnz]; [reflexivity|].
  rewrite Nat2N.inj_succ, N2Nat.id.
  apply N.lt_le_trans with (2 ^ N.succ (N.log2 n))%N.
  - apply N.log2_spec. lia.
  - apply N.pow_le_mono_l. lia.
Qed.

Example fmt_d_samples :
  fmt_d 700 = "700" /\ fmt_d 0 = "0" /\ fmt_d (-12) = "-12"
  /\ fmt_d (uint_as_int 100) = "100"
  /\ fmt_d (uint_as_int 4294967295) = "-1".
Proof. repeat split. Qed.

(** A nonnegative [int] prints in at most ten characters. *)
Lemma fmt_d_length (z : Z) :
  (0 <= z < 2 ^ 31)%Z -> String.length (fmt_d z) <= 10.
Proof.
  intros Hz. unfold fmt_d, dec_of_N.
  destruct (Z.ltb_spec z 0) as [Hneg|_]; [lia|].
  pose proof (dec_digits_length (S (N.to_nat (N.log2 (Z.to_N z)))) 10
                (Z.to_N z) EmptyString ltac:(lia)) as H.
  simpl String.length in H. rewrite Nat.add_0_r in H. apply H.
  change (10 ^ N.of_nat 10)%N with 10000000000%N.
  change (2 ^ 31)%Z with 2147483648%Z in Hz. lia.
Qed.

Lemma uint_as_int_small (n : N) :
  (n < 2 ^ 31)%N -> uint_as_int n = Z.of_N n.
Proof.
  intros H. unfold uint_as_int.
  assert (Hlt : (n < 2 ^ 32)%N).
  { change (2 ^ 32)%N with 4294967296%N.
    change (2 ^ 31)%N with 2147483648%N in H. lia. }
  rewrite (N.mod_small n _ Hlt).
  destruct (N.ltb_spec n (2 ^ 31)); [reflexivity | lia].
Qed.

(** ** Validation *)

(** Unfolding of the monad and of the statements built on it. *)
Ltac unfold_m :=
  cbv beta iota zeta delta
    [bind ret call call_silent modify_ectx get_tsk_errno error_reset
     set_tsk_errno snprintf_tsk_errstr clear_tsk_errstr clear_tsk_errstr2
     close fail_unktype fail_unsuptype
     fst snd glob trace sys ectx tsk_errno tsk_errstr tsk_errstr2
     reset_state reset_glob tsk_error_reset err_code err_msg err_msg2
     set img_set].

(** Case analysis on the next call to a function of the world [W]. *)
Ltac oracle_step W :=
  match goal with
  | |- context [aff_open W ?x ?y ?g] =>
      destruct (aff_open W x y g) as [[?|] ?] eqn:?
  | |- context [ewf_open W ?n ?x ?y ?g] =>
      destruct (ewf_open W n x y g) as [[?|] ?] eqn:?
  | |- context [raw_open W ?x ?y ?g] =>
      destruct (raw_open W x y g) as [[?|] ?] eqn:?
  | |- context [split_open W ?n ?x ?y ?g] =>
      destruct (split_open W n x y g) as [[?|] ?] eqn:?
  | |- context [TSTAT W ?x ?g] =>
      destruct (TSTAT W x g) as [? ?] eqn:?
  | |- context [tsk_malloc W ?n ?g] =>
      destruct (tsk_malloc W n g) as [[|] ?] eqn:?
  end; unfold_m.

Lemma bad_sector_size_iff (a_ssize : N) :
  bad_sector_size a_ssize <-> (a_ssize mod 512)%N <> 0%N.
Proof.
  unfold bad_sector_size. split.
  - intros (Hnz & [Hlt|Hmod]); [|exact Hmod].
    rewrite N.mod_small by exact Hlt. exact Hnz.
  - intros Hmod. split; [|right; exact Hmod].
    intros ->. apply Hmod. reflexivity.
Qed.

Section Validation.

Context {Sys : Type}.
Variable b : Build.
Variable W : World Sys.

(** With a first path and a sector size that passes, [tsk_img_open]
    resets the error record and dispatches on the type. *)
Lemma tsk_img_open_validated num_img images type a_ssize (s : State Sys) :
  num_img <> 0%Z -> images_at images 0 <> None ->
  (a_ssize mod 512)%N = 0%N ->
  tsk_img_open b W num_img images type a_ssize s =
  match type with
  | TSK_IMG_TYPE_DETECT => detect b W num_img images a_ssize
  | _ => open_as b W num_img images type a_ssize
  end (reset_state s).
Proof.
  intros Hn Hp Hs. unfold tsk_img_open.
  unfold bind at 1. unfold error_reset at 1, modify_ectx at 1.
  apply Z.eqb_neq in Hn. rewrite Hn.
  destruct (images_at images 0) eqn:E0; [|congruence]. simpl.
  destruct (N.ltb_spec 0 a_ssize) as [Hpos|Hz];
    destruct (N.ltb_spec a_ssize 512) as [Hlt|Hge]; simpl.
  - rewrite N.mod_small in Hs by exact Hlt. lia.
  - rewrite Hs. reflexivity.
  - rewrite Hs. reflexivity.
  - rewrite Hs. reflexivity.
Qed.

End Validation.

(** ** The record of calls *)

Section Calls.

Context {Sys : Type}.
Variable b : Build.
Variable W : World Sys.

Lemma framed_ret {A : Type} (a : A) : framed (@ret Sys A a).
Proof.
  intros g tr. unfold ret. simpl. now rewrite app_nil_r.
Qed.

Lemma framed_bind {A B : Type} (m : M Sys A) (k : A -> M Sys B) :
  framed m -> (forall a, framed (k a)) -> framed (bind m k).
Proof.
  intros Hm Hk g tr. unfold bind.
  rewrite (Hm g tr).
  destruct (m (mkState g [])) as [a s1] eqn:E1. simpl.
  destruct s1 as [g1 tr1]. simpl.
  rewrite (Hk a g1 (tr ++ tr1)%list), (Hk a g1 tr1).
  destruct (k a (mkState g1 [])) as [r s2]. simpl.
  now rewrite app_assoc.
Qed.

Lemma framed_call {A : Type} (ev : Event) (f : Glob Sys -> A * Glob Sys) :
  framed (call ev f).
Proof.
  intros g tr. unfold call. simpl. destruct (f g) as [a g']. reflexivity.
Qed.

Lemma framed_modify_ectx (f : ErrCtx -> ErrCtx) :
  framed (@modify_ectx Sys f).
Proof.
  intros g tr. unfold modify_ectx. simpl. now rewrite app_nil_r.
Qed.

Lemma framed_get_tsk_errno : framed (@get_tsk_errno Sys).
Proof.
  intros g tr. unfold get_tsk_errno. simpl. now rewrite app_nil_r.
Qed.

Lemma framed_read {A : Type} (f : State Sys -> A) :
  (forall g tr, f (mkState g tr) = f (mkState g [])) ->
  framed (fun s => (f s, s)).
Proof.
  intros Hf g tr. simpl. now rewrite app_nil_r, (Hf g tr).
Qed.

Ltac framed_step :=
  match goal with
  | |- framed (bind _ _) => apply framed_bind; [|intros ?]
  | |- framed (ret _) => apply framed_ret
  | |- framed (call _ _) => apply framed_call
  | |- framed (modify_ectx _) => apply framed_modify_ectx
  | |- framed get_tsk_errno => apply framed_get_tsk_errno
  | |- framed (if ?c then _ else _) => destruct c
  | |- framed (match ?x with _ => _ end) => destruct x
  end.

Lemma framed_close (img : TSK_IMG_INFO) : framed (close W img).
Proof. unfold close. apply framed_call. Qed.

Lemma framed_detect_stat images : framed (detect_stat b W images).
Proof.
  unfold detect_stat, fail_unktype, error_reset, set_tsk_errno,
    snprintf_tsk_errstr, clear_tsk_errstr, clear_tsk_errstr2.
  apply framed_bind; [apply framed_call | intros r].
  destruct (r <? 0)%Z; [destruct (_ && _)|]; repeat framed_step.
  apply framed_read. reflexivity.
Qed.

Lemma framed_detect_raw num_img images a_ssize :
  framed (detect_raw b W num_img images a_ssize).
Proof.
  unfold detect_raw.
  apply framed_bind.
  - destruct (num_img =? 1)%Z; apply framed_call.
  - intros [img|]; [apply framed_ret|].
    apply framed_bind; [apply framed_get_tsk_errno|].
    intros e. destruct (is_set e); [apply framed_ret|].
    apply framed_detect_stat.
Qed.

Lemma framed_detect_from_ewf num_img images a_ssize cand :
  framed (detect_from_ewf b W num_img images a_ssize cand).
Proof.
  unfold detect_from_ewf, detect_ewf, detect_finish, error_reset,
    set_tsk_errno, snprintf_tsk_errstr.
  apply framed_bind.
  - destruct (HAVE_LIBEWF b); [|apply framed_ret].
    apply framed_bind; [apply framed_call|].
    intros [img|]; [destruct cand|]; repeat framed_step;
      apply framed_close.
  - intros [u|[c|]]; [apply framed_ret | apply framed_ret |].
    apply framed_detect_raw.
Qed.

(** Autodetection always reaches a driver: its first call is an open,
    and it is handed the caller's paths. *)
Lemma detect_first_call num_img images a_ssize (s : State Sys) :
  exists ev evs,
    calls_between s (snd (detect b W num_img images a_ssize s)) (ev :: evs)
    /\ In ev [EvAffOpen images a_ssize;
              EvEwfOpen num_img images a_ssize;
              EvRawOpen (images_at images 0) a_ssize;
              EvSplitOpen num_img images a_ssize].
Proof.
  unfold calls_between, detect, detect_aff, detect_from_ewf, detect_ewf,
    detect_finish, detect_raw, detect_stat.
  destruct (HAVE_LIBAFFLIB b), (HAVE_LIBEWF b), (num_img =? 1)%Z; unfold_m;
    repeat first
      [ oracle_step W
      | match goal with
        | |- context [if ?e then _ else _] => destruct e; unfold_m
        end ];
    rewrite <- ?app_assoc; cbn [app];
    eexists; eexists; (split; [reflexivity | simpl; tauto]).
Qed.

Lemma backend_open_of_first_call num_img images a_ssize (ev : Event) :
  In ev [EvAffOpen images a_ssize;
         EvEwfOpen num_img images a_ssize;
         EvRawOpen (images_at images 0) a_ssize;
         EvSplitOpen num_img images a_ssize] ->
  is_backend_open ev = true.
Proof.
  simpl. intros [<-|[<-|[<-|[<-|[]]]]]; reflexivity.
Qed.

(** A given type makes one driver call, or none and [UNSUPTYPE]. *)
Lemma open_as_calls num_img images type a_ssize (s : State Sys) :
  (exists ev,
     calls_between s (snd (open_as b W num_img images type a_ssize s)) [ev]
     /\ is_backend_open ev = true)
  \/ (fst (open_as b W num_img images type a_ssize s) = None
      /\ calls_between s (snd (open_as b W num_img images type a_ssize s)) []
      /\ err_code (snd (open_as b W num_img images type a_ssize s))
         = TSK_ERR_IMG_UNSUPTYPE).
Proof.
  unfold calls_between, open_as.
  destruct type, (HAVE_LIBAFFLIB b), (HAVE_LIBEWF b),
    (1 <? num_img)%Z, (num_img =? 1)%Z; unfold_m;
    repeat oracle_step W;
    first [ left; eexists; split; reflexivity
          | right; rewrite app_nil_r; repeat split; reflexivity ].
Qed.

Lemma calls_between_inj (s s' : State Sys) (evs evs' : list Event) :
  calls_between s s' evs -> calls_between s s' evs' -> evs = evs'.
Proof.
  unfold calls_between. intros H H'. rewrite H in H'.
  now apply app_inv_head in H'.
Qed.

End Calls.

(** ** Validation of the arguments and routing of a given type *)

Section ValidationClaims.

Context {Sys : Type}.
Variable b : Build.
Variable W : World Sys.

Lemma no_backend_touched_first (s s' : State Sys) ev evs :
  calls_between s s' (ev :: evs) -> is_backend_open ev = true ->
  ~ no_backend_touched s s'.
Proof.
  intros Hc Hev (evs' & Hc' & Hall).
  rewrite (calls_between_inj _ _ _ _ Hc' Hc) in Hall.
  simpl in Hall. rewrite Hev in Hall. discriminate.
Qed.

(** With arguments that pass the validation, a call is never a rejection
    that names [ARG] or [NOFILE] before any driver was touched. *)
Lemma validated_not_rejected num_img images type a_ssize (s : State Sys) :
  num_img <> 0%Z -> images_at images 0 <> None ->
  (a_ssize mod 512)%N = 0%N ->
  no_backend_touched s (snd (tsk_img_open b W num_img images type a_ssize s)) ->
  err_code (snd (tsk_img_open b W num_img images type a_ssize s))
  = TSK_ERR_IMG_UNSUPTYPE.
Proof.
  intros Hn Hp Hs Hnb.
  rewrite (tsk_img_open_validated b W _ _ type _ s Hn Hp Hs) in *.
  assert (Hdet : ~ no_backend_touched s
                   (snd (detect b W num_img images a_ssize (reset_state s)))).
  { destruct (detect_first_call b W num_img images a_ssize (reset_state s))
      as (ev & evs & Hc & Hin).
    apply (no_backend_touched_first _ _ ev evs); [exact Hc|].
    eapply backend_open_of_first_call, Hin. }
  assert (Has : forall t,
             no_backend_touched s
               (snd (open_as b W num_img images t a_ssize (reset_state s))) ->
             err_code (snd (open_as b W num_img images t a_ssize (reset_state s)))
             = TSK_ERR_IMG_UNSUPTYPE).
  { intros t Ht.
    destruct (open_as_calls b W num_img images t a_ssize (reset_state s))
      as [(ev & Hc & Hev)|(_ & _ & He)]; [|exact He].
    exfalso. apply (no_backend_touched_first _ _ ev [] Hc Hev Ht). }
  destruct type; first [ contradiction | apply Has; exact Hnb ].
Qed.

End ValidationClaims.

(** C8.  A call with an empty path list -- [num_img] is 0, or the first
    entry of [images] is [NULL] -- returns no handle, calls no driver and
    leaves the code [TSK_ERR_IMG_NOFILE].  The sector size plays no part:
    the check comes before the validation of [a_ssize], so the same holds
    for a sector size that would be rejected. *)
Theorem empty_path_list_is_NOFILE {Sys : Type} (b : Build) (W : World Sys)
  (num_img : Z) (images : list TSK_TCHAR_ptr) (type : TSK_IMG_TYPE_ENUM)
  (a_ssize : N) (s : State Sys) :
  num_img = 0%Z \/ images_at images 0 = None ->
  fst (tsk_img_open b W num_img images type a_ssize s) = None
  /\ calls_between s (snd (tsk_img_open b W num_img images type a_ssize s)) []
  /\ err_code (snd (tsk_img_open b W num_img images type a_ssize s))
     = TSK_ERR_IMG_NOFILE.
Proof.
  intros H. unfold tsk_img_open, calls_between.
  assert (Hc : (num_img =? 0)%Z || is_NULL (images_at images 0) = true).
  { destruct H as [->| ->]; [reflexivity|]. apply orb_true_r. }
  unfold bind at 1. unfold error_reset at 1, modify_ectx at 1.
  rewrite Hc. unfold_m. rewrite app_nil_r. repeat split.
Qed.

Lemma ARG_text_fits (b : Build) (old intro : string) (a_ssize : N) :
  String.length intro <= 38 -> 50 <= TSK_ERRSTR_L b ->
  (a_ssize < 2 ^ 31)%N ->
  snprintf old (TSK_ERRSTR_L b)
    (intro ++ fmt_d (uint_as_int a_ssize) ++ ")")
  = intro ++ dec_of_N a_ssize ++ ")".
Proof.
  intros Hi HL Ha.
  rewrite uint_as_int_small by exact Ha.
  assert (Hz : (0 <= Z.of_N a_ssize < 2 ^ 31)%Z).
  { change (2 ^ 31)%N with 2147483648%N in Ha.
    change (2 ^ 31)%Z with 2147483648%Z. lia. }
  pose proof (fmt_d_length _ Hz) as Hlen.
  assert (Hf : fmt_d (Z.of_N a_ssize) = dec_of_N a_ssize).
  { unfold fmt_d. destruct (Z.ltb_spec (Z.of_N a_ssize) 0); [lia|].
    now rewrite N2Z.id. }
  rewrite Hf in *.
  apply snprintf_fits. rewrite !length_append. simpl. lia.
Qed.

(** C3, as the code has it.  For a call with a first path, the call is
    turned down with [TSK_ERR_IMG_ARG] before any driver is touched if
    and only if [a_ssize] is nonzero and below 512 or not a multiple of
    512; [a_ssize = 0] is never turned down so.  The two tests are made
    in order: a size in 1..511 gets the message of the 512-byte floor
    (and not the one of the modulus), a size above 512 that is not a
    multiple of 512 the message of the modulus, each with the value in
    decimal (for the values an [int] holds, printed through [%d], and
    whole in a buffer of 50 characters or more). *)
Theorem sector_size_validation {Sys : Type} (b : Build) (W : World Sys)
  (num_img : Z) (images : list TSK_TCHAR_ptr) (type : TSK_IMG_TYPE_ENUM)
  (a_ssize : N) (s : State Sys) :
  num_img <> 0%Z -> images_at images 0 <> None ->
  ((fst (tsk_img_open b W num_img images type a_ssize s) = None
    /\ err_code (snd (tsk_img_open b W num_img images type a_ssize s))
       = TSK_ERR_IMG_ARG
    /\ no_backend_touched s (snd (tsk_img_open b W num_img images type a_ssize s)))
   <-> bad_sector_size a_ssize)
  /\ (bad_sector_size a_ssize ->
      calls_between s (snd (tsk_img_open b W num_img images type a_ssize s)) [])
  /\ (a_ssize = 0%N ->
      ~ (err_code (snd (tsk_img_open b W num_img images type a_ssize s))
         = TSK_ERR_IMG_ARG
         /\ no_backend_touched s
              (snd (tsk_img_open b W num_img images type a_ssize s))))
  /\ (50 <= TSK_ERRSTR_L b -> (0 < a_ssize < 512)%N ->
      err_msg (snd (tsk_img_open b W num_img images type a_ssize s))
      = "sector size is less than 512 bytes (" ++ dec_of_N a_ssize ++ ")")
  /\ (50 <= TSK_ERRSTR_L b ->
      (512 < a_ssize < 2 ^ 31)%N -> (a_ssize mod 512)%N <> 0%N ->
      err_msg (snd (tsk_img_open b W num_img images type a_ssize s))
      = "sector size is not a multiple of 512 (" ++ dec_of_N a_ssize ++ ")").
Proof.
  intros Hn Hp.
  assert (Hvalid : (a_ssize mod 512)%N = 0%N ->
            ~ (err_code (snd (tsk_img_open b W num_img images type a_ssize s))
               = TSK_ERR_IMG_ARG
               /\ no_backend_touched s
                    (snd (tsk_img_open b W num_img images type a_ssize s)))).
  { intros Hs (He & Hnb).
    rewrite (validated_not_rejected b W _ _ _ _ s Hn Hp Hs Hnb) in He.
    discriminate. }
  assert (Hbad : bad_sector_size a_ssize ->
            tsk_img_open b W num_img images type a_ssize s
            = (None,
               mkState
                 (mkGlob (sys (glob s))
                    (mkErrCtx TSK_ERR_IMG_ARG
                       (snprintf EmptyString (TSK_ERRSTR_L b)
                          ((if (a_ssize <? 512)%N
                            then "sector size is less than 512 bytes ("
                            else "sector size is not a multiple of 512 (")
                           ++ fmt_d (uint_as_int a_ssize) ++ ")"))
                       EmptyString))
                 (trace s))).
  { intros Hb. pose proof Hb as (Hnz & _).
    apply bad_sector_size_iff in Hb.
    unfold tsk_img_open. unfold bind at 1.
    unfold error_reset at 1, modify_ectx at 1.
    apply Z.eqb_neq in Hn. rewrite Hn.
    destruct (images_at images 0); [|congruence]. cbn [is_NULL orb].
    destruct (N.ltb_spec 0 a_ssize) as [_|H0]; [|lia].
    destruct (N.ltb_spec a_ssize 512) as [Hlt|Hge]; cbn [andb].
    - unfold_m. reflexivity.
    - apply N.eqb_neq in Hb. rewrite Hb. cbn [negb]. unfold_m. reflexivity. }
  split; [split|split; [|split; [|split]]].
  - intros (_ & He & Hnb).
    apply bad_sector_size_iff. intros Hs.
    apply (Hvalid Hs). split; assumption.
  - intros Hb. rewrite (Hbad Hb). split; [reflexivity|].
    split; [reflexivity|]. exists []. split; [|reflexivity].
    unfold calls_between. simpl. now rewrite app_nil_r.
  - intros Hb. rewrite (Hbad Hb). unfold calls_between. simpl.
    now rewrite app_nil_r.
  - intros ->. apply Hvalid. reflexivity.
  - intros HL (Hpos & Hlt).
    rewrite Hbad by (split; [lia | left; exact Hlt]).
    apply N.ltb_lt in Hlt. rewrite Hlt. unfold err_msg. cbn [snd glob ectx tsk_errstr].
    apply (ARG_text_fits b EmptyString "sector size is less than 512 bytes (");
      [simpl; lia | exact HL |].
    apply N.ltb_lt in Hlt. change (2 ^ 31)%N with 2147483648%N. lia.
  - intros HL (Hgt & Hlt) Hmod.
    rewrite Hbad by (split; [lia | right; exact Hmod]).
    destruct (N.ltb_spec a_ssize 512) as [Hc|_]; [lia|].
    unfold err_msg. cbn [snd glob ectx tsk_errstr].
    apply (ARG_text_fits b EmptyString "sector size is not a multiple of 512 (");
      [simpl; lia | exact HL | exact Hlt].
Qed.

Lemma empty_path_list_is_NOFILE_witness :
  (0%Z = 0%Z \/ images_at [] 0 = None)
  /\ fst (tsk_img_open Scenario.unix_full Scenario.only_raw 0 []
            TSK_IMG_TYPE_DETECT 100 Scenario.stale) = None
  /\ calls_between Scenario.stale
       (snd (tsk_img_open Scenario.unix_full Scenario.only_raw 0 []
               TSK_IMG_TYPE_DETECT 100 Scenario.stale)) []
  /\ err_code (snd (tsk_img_open Scenario.unix_full Scenario.only_raw 0 []
                      TSK_IMG_TYPE_DETECT 100 Scenario.stale))
     = TSK_ERR_IMG_NOFILE.
Proof.
  split; [left; reflexivity|].
  apply (empty_path_list_is_NOFILE Scenario.unix_full Scenario.only_raw 0 []
           TSK_IMG_TYPE_DETECT 100 Scenario.stale).
  left; reflexivity.
Defined.

Lemma sector_size_validation_witness :
  (1 <> 0)%Z /\ images_at [Some "a.dd"] 0 <> None
  /\ 50 <= TSK_ERRSTR_L Scenario.unix_full
  /\ (512 < 700 < 2 ^ 31)%N /\ (700 mod 512)%N <> 0%N
  /\ err_msg (snd (tsk_img_open Scenario.unix_full Scenario.only_raw 1
                     [Some "a.dd"] TSK_IMG_TYPE_DETECT 700 Scenario.stale))
     = "sector size is not a multiple of 512 (" ++ dec_of_N 700 ++ ")".
Proof.
  assert (H1 : (1 <> 0)%Z) by discriminate.
  assert (H2 : images_at [Some "a.dd"] 0 <> None) by discriminate.
  assert (H3 : 50 <= TSK_ERRSTR_L Scenario.unix_full) by (simpl; lia).
  assert (H4 : (512 < 700 < 2 ^ 31)%N) by (split; reflexivity).
  assert (H5 : (700 mod 512)%N <> 0%N) by discriminate.
  repeat (split; [assumption|]).
  exact (proj2 (proj2 (proj2 (proj2
    (sector_size_validation Scenario.unix_full Scenario.only_raw 1
       [Some "a.dd"] TSK_IMG_TYPE_DETECT 700 Scenario.stale H1 H2)))) H3 H4 H5).
Defined.

(** C3 as stated fails at the sector size 100.  It is positive and not a
    multiple of 512, and the call is turned down with [ARG], but the
    message is the one of the 512-byte floor: it says nothing of
    multiples of 512. *)
Lemma sector_size_100_counterexample :
  (0 < 100)%N /\ (100 mod 512)%N <> 0%N
  /\ err_code (snd (tsk_img_open Scenario.unix_full Scenario.only_raw 1
                      [Some "a.dd"] TSK_IMG_TYPE_DETECT 100 Scenario.start))
     = TSK_ERR_IMG_ARG
  /\ err_msg (snd (tsk_img_open Scenario.unix_full Scenario.only_raw 1
                     [Some "a.dd"] TSK_IMG_TYPE_DETECT 100 Scenario.start))
     = "sector size is less than 512 bytes (100)"
  /\ ~ contains "multiple"
         (err_msg (snd (tsk_img_open Scenario.unix_full Scenario.only_raw 1
                          [Some "a.dd"] TSK_IMG_TYPE_DETECT 100 Scenario.start))).
Proof.
  split; [reflexivity|]. split; [discriminate|].
  split; [reflexivity|]. split; [reflexivity|].
  apply not_contains. vm_compute. reflexivity.
Qed.

(** In the world [quiet] the empty path reaches the drivers and then
    [stat]. *)
Example empty_string_path_reaches_stat :
  trace (snd (tsk_img_open Scenario.unix_plain Scenario.quiet 1 [Some EmptyString]
                TSK_IMG_TYPE_DETECT 0 Scenario.start))
  = [EvRawOpen (Some EmptyString) 0; EvStat (Some EmptyString)].
Proof. reflexivity. Qed.

(** The two raw types are one and the same open, for every sector size
    and every path list with a count that is not negative. *)
Lemma raw_types_agree {Sys : Type} (b : Build) (W : World Sys)
  (num_img : Z) (images : list TSK_TCHAR_ptr) (a_ssize : N) (s : State Sys) :
  (0 <= num_img)%Z ->
  tsk_img_open b W num_img images TSK_IMG_TYPE_RAW_SING a_ssize s
  = tsk_img_open b W num_img images TSK_IMG_TYPE_RAW_SPLIT a_ssize s.
Proof.
  intros Hn. unfold tsk_img_open, bind.
  destruct (error_reset s) as [u s0].
  destruct (Z.eqb_spec num_img 0) as [E0|E0]; [reflexivity|].
  cbn [orb].
  destruct (is_NULL (images_at images 0)); [reflexivity|].
  destruct ((0 <? a_ssize)%N && (a_ssize <? 512)%N); [reflexivity|].
  destruct (negb (a_ssize mod 512 =? 0)%N); [reflexivity|].
  unfold open_as.
  destruct (Z.ltb_spec 1 num_img) as [H1|H1];
    destruct (Z.eqb_spec num_img 1) as [E1|E1]; try reflexivity; lia.
Qed.

(** C4, as the code has it.  For a path list with a first path and a
    sector size that passes the validation (0 or a multiple of 512):
    [tsk_img_open] with [TSK_IMG_TYPE_RAW_SING] and more than one path is
    the call [split_open(num_img, images, a_ssize)] made on the reset
    error record, and with [TSK_IMG_TYPE_RAW_SPLIT] and one path it is
    the call [raw_open(images[0], a_ssize)]: same handle or failure, same
    globals afterwards. *)
Theorem raw_types_route_by_count {Sys : Type} (b : Build) (W : World Sys)
  (num_img : Z) (images : list TSK_TCHAR_ptr) (a_ssize : N) (s : State Sys) :
  images_at images 0 <> None -> (a_ssize mod 512)%N = 0%N ->
  ((1 < num_img)%Z ->
   tsk_img_open b W num_img images TSK_IMG_TYPE_RAW_SING a_ssize s
   = (fst (split_open W num_img images a_ssize (reset_glob (glob s))),
      mkState (snd (split_open W num_img images a_ssize (reset_glob (glob s))))
              (trace s ++ [EvSplitOpen num_img images a_ssize])))
  /\ (num_img = 1%Z ->
      tsk_img_open b W num_img images TSK_IMG_TYPE_RAW_SPLIT a_ssize s
      = (fst (raw_open W (images_at images 0) a_ssize (reset_glob (glob s))),
         mkState (snd (raw_open W (images_at images 0) a_ssize
                         (reset_glob (glob s))))
                 (trace s ++ [EvRawOpen (images_at images 0) a_ssize]))).
Proof.
  intros Hp Hs. split; intros Hn.
  - rewrite tsk_img_open_validated by (try assumption; lia).
    unfold open_as. apply Z.ltb_lt in Hn. rewrite Hn.
    unfold call, reset_state. cbn [glob trace].
    destruct (split_open W num_img images a_ssize (reset_glob (glob s))).
    reflexivity.
  - rewrite tsk_img_open_validated by (try assumption; lia).
    unfold open_as. subst num_img. cbn [Z.eqb Pos.eqb].
    unfold call, reset_state. cbn [glob trace].
    destruct (raw_open W (images_at images 0) a_ssize (reset_glob (glob s))).
    reflexivity.
Qed.

Lemma raw_types_route_by_count_witness :
  images_at [Some "a.001"; Some "a.002"] 0 <> None
  /\ (1024 mod 512)%N = 0%N /\ (1 < 2)%Z
  /\ fst (tsk_img_open Scenario.unix_full Scenario.only_raw 2
            [Some "a.001"; Some "a.002"] TSK_IMG_TYPE_RAW_SING 1024
            Scenario.stale)
     = Some Scenario.split_img.
Proof.
  assert (H1 : images_at [Some "a.001"; Some "a.002"] 0 <> None)
    by discriminate.
  assert (H2 : (1024 mod 512)%N = 0%N) by reflexivity.
  assert (H3 : (1 < 2)%Z) by reflexivity.
  repeat (split; [assumption|]).
  rewrite (proj1 (raw_types_route_by_count Scenario.unix_full Scenario.only_raw
                    2 [Some "a.001"; Some "a.002"] 1024 Scenario.stale H1 H2) H3).
  reflexivity.
Defined.

(** C4 as stated fails at the sector size 100, with split files that the
    split driver opens whatever the sector size: the direct call gives a
    handle, [tsk_img_open] with [TSK_IMG_TYPE_RAW_SING] gives none and
    never reaches the driver. *)
Lemma raw_sing_sector_100_counterexample :
  fst (split_open Scenario.only_raw 2 [Some "a.001"; Some "a.002"] 100
         (reset_glob (glob Scenario.start)))
  = Some Scenario.split_img
  /\ fst (tsk_img_open Scenario.unix_full Scenario.only_raw 2
            [Some "a.001"; Some "a.002"] TSK_IMG_TYPE_RAW_SING 100
            Scenario.start)
     = None
  /\ trace (snd (tsk_img_open Scenario.unix_full Scenario.only_raw 2
                   [Some "a.001"; Some "a.002"] TSK_IMG_TYPE_RAW_SING 100
                   Scenario.start))
     = [].
Proof. repeat split. Qed.

(** ** Autodetection *)

Section Detection.

Context {Sys : Type}.
Variable b : Build.
Variable W : World Sys.

Lemma reset_state_idem (s : State Sys) :
  reset_state (reset_state s) = reset_state s.
Proof. reflexivity. Qed.

(** Under validated arguments, [TSK_IMG_TYPE_DETECT] runs the AFF block
    on the reset error record and then lines 142-209. *)
Lemma tsk_img_open_detect num_img images a_ssize (s : State Sys) :
  num_img <> 0%Z -> images_at images 0 <> None ->
  (a_ssize mod 512)%N = 0%N ->
  tsk_img_open b W num_img images TSK_IMG_TYPE_DETECT a_ssize s
  = bind (detect_aff b W images a_ssize)
         (detect_from_ewf b W num_img images a_ssize) (reset_state s).
Proof.
  intros Hn Hp Hs.
  rewrite tsk_img_open_validated by assumption.
  reflexivity.
Qed.

(** The four ways through the AFF block. *)
Lemma detect_aff_absent images a_ssize (s : State Sys) :
  HAVE_LIBAFFLIB b = false ->
  detect_aff b W images a_ssize s = (None, s).
Proof.
  intros H. unfold detect_aff. rewrite H. reflexivity.
Qed.

Lemma detect_aff_declined images a_ssize (s : State Sys) g1 :
  HAVE_LIBAFFLIB b = true ->
  aff_open W images a_ssize (glob s) = (None, g1) ->
  detect_aff b W images a_ssize s
  = (None, mkState (reset_glob g1) (trace s ++ [EvAffOpen images a_ssize])).
Proof.
  intros H E. destruct s as [g tr]. cbn [glob] in E. unfold detect_aff. rewrite H. unfold_m. rewrite E. reflexivity.
Qed.

Lemma detect_aff_any images a_ssize (s : State Sys) h g1 :
  HAVE_LIBAFFLIB b = true ->
  aff_open W images a_ssize (glob s) = (Some h, g1) ->
  is_AFF_ANY (itype h) = true ->
  detect_aff b W images a_ssize s
  = (None, mkState (img_close W h g1)
             (trace s ++ [EvAffOpen images a_ssize; EvClose h])).
Proof.
  intros H E Hany. destruct s as [g tr]. cbn [glob] in E. unfold detect_aff. rewrite H. unfold_m. rewrite E, Hany.
  unfold_m. now rewrite <- app_assoc.
Qed.

Lemma detect_aff_matched images a_ssize (s : State Sys) h g1 :
  HAVE_LIBAFFLIB b = true ->
  aff_open W images a_ssize (glob s) = (Some h, g1) ->
  is_AFF_ANY (itype h) = false ->
  detect_aff b W images a_ssize s
  = (Some (mkCandidate "AFF" h),
     mkState g1 (trace s ++ [EvAffOpen images a_ssize])).
Proof.
  intros H E Hany. destruct s as [g tr]. cbn [glob] in E. unfold detect_aff. rewrite H. unfold_m. rewrite E, Hany.
  reflexivity.
Qed.

(** The AFF block keeps a candidate only for an AFF handle, and calls
    neither the raw nor the split driver. *)
Lemma detect_aff_calls images a_ssize (s : State Sys) :
  exists evs,
    calls_between s (snd (detect_aff b W images a_ssize s)) evs
    /\ forallb (fun e => negb (is_raw_or_split e)) evs = true.
Proof.
  unfold detect_aff, calls_between.
  destruct (HAVE_LIBAFFLIB b); unfold_m.
  - oracle_step W.
    + destruct (is_AFF_ANY (itype t)); unfold_m;
        rewrite <- ?app_assoc; eexists; split; reflexivity.
    + eexists; split; reflexivity.
  - exists []. now rewrite app_nil_r.
Qed.


Lemma detect_ewf_declined num_img images a_ssize cand (s : State Sys) g2 :
  HAVE_LIBEWF b = true ->
  ewf_open W num_img images a_ssize (glob s) = (None, g2) ->
  detect_ewf b W num_img images a_ssize cand s
  = (inr cand,
     mkState (reset_glob g2) (trace s ++ [EvEwfOpen num_img images a_ssize])).
Proof.
  intros H E. destruct s as [g tr]. cbn [glob] in E. unfold detect_ewf. rewrite H. unfold_m. rewrite E. reflexivity.
Qed.

Lemma detect_ewf_first num_img images a_ssize (s : State Sys) h g2 :
  HAVE_LIBEWF b = true ->
  ewf_open W num_img images a_ssize (glob s) = (Some h, g2) ->
  detect_ewf b W num_img images a_ssize None s
  = (inr (Some (mkCandidate "EWF" h)),
     mkState g2 (trace s ++ [EvEwfOpen num_img images a_ssize])).
Proof.
  intros H E. destruct s as [g tr]. cbn [glob] in E. unfold detect_ewf. rewrite H. unfold_m. rewrite E. reflexivity.
Qed.

Lemma detect_ewf_second num_img images a_ssize c (s : State Sys) h g2 :
  HAVE_LIBEWF b = true ->
  ewf_open W num_img images a_ssize (glob s) = (Some h, g2) ->
  detect_ewf b W num_img images a_ssize (Some c) s
  = (inl tt,
     mkState
       (mkGlob (sys (img_close W h (img_close W (img_set c) g2)))
          (mkErrCtx TSK_ERR_IMG_UNKTYPE
             (snprintf EmptyString (TSK_ERRSTR_L b) ("EWF or " ++ set c)) EmptyString))
       (trace s ++ [EvEwfOpen num_img images a_ssize;
                    EvClose (img_set c); EvClose h])).
Proof.
  intros H E. destruct s as [g tr]. cbn [glob] in E. unfold detect_ewf. rewrite H. unfold_m. rewrite E. unfold_m.
  now rewrite <- !app_assoc.
Qed.

End Detection.

(** C1, as the code has it.  During autodetection, when the AFF or the
    EWF probe returns no handle, whatever error it has set is dropped:
    [tsk_img_open] resets the error record and goes on -- after AFF with
    the EWF block and what follows it, after EWF with the check for a
    match and the raw or split attempt.  Nothing of the probe's error
    record reaches the rest of the call. *)
Theorem failed_probe_error_is_reset {Sys : Type} (b : Build) (W : World Sys)
  (num_img : Z) (images : list TSK_TCHAR_ptr) (a_ssize : N) (s : State Sys) :
  num_img <> 0%Z -> images_at images 0 <> None ->
  (a_ssize mod 512)%N = 0%N ->
  (forall g1,
     HAVE_LIBAFFLIB b = true ->
     aff_open W images a_ssize (reset_glob (glob s)) = (None, g1) ->
     tsk_img_open b W num_img images TSK_IMG_TYPE_DETECT a_ssize s
     = detect_from_ewf b W num_img images a_ssize None
         (mkState (reset_glob g1) (trace s ++ [EvAffOpen images a_ssize])))
  /\ (forall cand s1 g2,
        HAVE_LIBEWF b = true ->
        detect_aff b W images a_ssize (reset_state s) = (cand, s1) ->
        ewf_open W num_img images a_ssize (glob s1) = (None, g2) ->
        tsk_img_open b W num_img images TSK_IMG_TYPE_DETECT a_ssize s
        = detect_finish b W num_img images a_ssize cand
            (mkState (reset_glob g2)
                     (trace s1 ++ [EvEwfOpen num_img images a_ssize]))).
Proof.
  intros Hn Hp Hs. split.
  - intros g1 Haff E.
    rewrite tsk_img_open_detect by assumption.
    unfold bind at 1.
    rewrite (detect_aff_declined b W images a_ssize (reset_state s) g1 Haff E).
    reflexivity.
  - intros cand s1 g2 Hewf Ea Ee.
    rewrite tsk_img_open_detect by assumption.
    unfold bind at 1. rewrite Ea.
    unfold detect_from_ewf, bind.
    rewrite (detect_ewf_declined b W num_img images a_ssize cand s1 g2 Hewf Ee).
    reflexivity.
Qed.

Lemma failed_probe_error_is_reset_witness :
  (1 <> 0)%Z /\ images_at [Some "a.dd"] 0 <> None /\ (0 mod 512)%N = 0%N
  /\ HAVE_LIBAFFLIB Scenario.unix_full = true
  /\ aff_open Scenario.aff_breaks [Some "a.dd"] 0
       (reset_glob (glob Scenario.stale))
     = (None, mkGlob tt (mkErrCtx TSK_ERR_IMG_OPEN "aff_open" EmptyString))
  /\ tsk_img_open Scenario.unix_full Scenario.aff_breaks 1 [Some "a.dd"]
       TSK_IMG_TYPE_DETECT 0 Scenario.stale
     = detect_from_ewf Scenario.unix_full Scenario.aff_breaks 1 [Some "a.dd"]
         0 None
         (mkState (mkGlob tt (mkErrCtx NO_ERROR EmptyString EmptyString))
                  [EvAffOpen [Some "a.dd"] 0]).
Proof.
  assert (H1 : (1 <> 0)%Z) by discriminate.
  assert (H2 : images_at [Some "a.dd"] 0 <> None) by discriminate.
  assert (H3 : (0 mod 512)%N = 0%N) by reflexivity.
  repeat (split; [first [assumption | reflexivity]|]).
  exact (proj1 (failed_probe_error_is_reset Scenario.unix_full
                  Scenario.aff_breaks 1 [Some "a.dd"] 0 Scenario.stale
                  H1 H2 H3) _ eq_refl eq_refl).
Defined.

(** C1 as stated fails when the AFF probe returns no handle and leaves
    [TSK_ERR_IMG_OPEN]: the error is not propagated.  The EWF probe and
    the raw driver are called next, the call returns the raw handle, and
    no error is left. *)
Lemma aff_error_masked_counterexample :
  fst (aff_open Scenario.aff_breaks [Some "a.dd"] 0
         (reset_glob (glob Scenario.start))) = None
  /\ tsk_errno (ectx (snd (aff_open Scenario.aff_breaks [Some "a.dd"] 0
                             (reset_glob (glob Scenario.start)))))
     = TSK_ERR_IMG_OPEN
  /\ fst (tsk_img_open Scenario.unix_full Scenario.aff_breaks 1 [Some "a.dd"]
            TSK_IMG_TYPE_DETECT 0 Scenario.start)
     = Some Scenario.raw_img
  /\ err_code (snd (tsk_img_open Scenario.unix_full Scenario.aff_breaks 1
                      [Some "a.dd"] TSK_IMG_TYPE_DETECT 0 Scenario.start))
     = NO_ERROR
  /\ trace (snd (tsk_img_open Scenario.unix_full Scenario.aff_breaks 1
                   [Some "a.dd"] TSK_IMG_TYPE_DETECT 0 Scenario.start))
     = [EvAffOpen [Some "a.dd"] 0; EvEwfOpen 1 [Some "a.dd"] 0;
        EvRawOpen (Some "a.dd") 0].
Proof. repeat split. Qed.

(** C2, as the code has it.  When the AFF probe and then the EWF probe
    both return a handle (the AFF one not of the unspecified type),
    [tsk_img_open] returns no handle, the code is [TSK_ERR_IMG_UNKTYPE],
    the primary message [tsk_errstr] is "EWF or AFF" (whole in a buffer
    of 11 characters or more) and so names both formats, the secondary
    message [tsk_errstr2] is empty, and both handles have been closed,
    the AFF one first, before the return. *)
Theorem two_matches_are_ambiguous {Sys : Type} (b : Build) (W : World Sys)
  (num_img : Z) (images : list TSK_TCHAR_ptr) (a_ssize : N) (s : State Sys)
  (h_aff h_ewf : TSK_IMG_INFO) (g1 g2 : Glob Sys) :
  num_img <> 0%Z -> images_at images 0 <> None ->
  (a_ssize mod 512)%N = 0%N ->
  HAVE_LIBAFFLIB b = true -> HAVE_LIBEWF b = true ->
  aff_open W images a_ssize (reset_glob (glob s)) = (Some h_aff, g1) ->
  is_AFF_ANY (itype h_aff) = false ->
  ewf_open W num_img images a_ssize g1 = (Some h_ewf, g2) ->
  fst (tsk_img_open b W num_img images TSK_IMG_TYPE_DETECT a_ssize s) = None
  /\ err_code (snd (tsk_img_open b W num_img images TSK_IMG_TYPE_DETECT a_ssize s))
     = TSK_ERR_IMG_UNKTYPE
  /\ err_msg (snd (tsk_img_open b W num_img images TSK_IMG_TYPE_DETECT a_ssize s))
     = snprintf EmptyString (TSK_ERRSTR_L b) "EWF or AFF"
  /\ (11 <= TSK_ERRSTR_L b ->
      err_msg (snd (tsk_img_open b W num_img images TSK_IMG_TYPE_DETECT a_ssize s))
      = "EWF or AFF"
      /\ contains "EWF"
           (err_msg (snd (tsk_img_open b W num_img images TSK_IMG_TYPE_DETECT
                            a_ssize s)))
      /\ contains "AFF"
           (err_msg (snd (tsk_img_open b W num_img images TSK_IMG_TYPE_DETECT
                            a_ssize s))))
  /\ err_msg2 (snd (tsk_img_open b W num_img images TSK_IMG_TYPE_DETECT a_ssize s))
     = EmptyString
  /\ calls_between s
       (snd (tsk_img_open b W num_img images TSK_IMG_TYPE_DETECT a_ssize s))
       [EvAffOpen images a_ssize; EvEwfOpen num_img images a_ssize;
        EvClose h_aff; EvClose h_ewf].
Proof.
  intros Hn Hp Hs Haff Hewf Ea Hany Ee.
  assert (E : tsk_img_open b W num_img images TSK_IMG_TYPE_DETECT a_ssize s
              = (None,
                 mkState
                   (mkGlob (sys (img_close W h_ewf (img_close W h_aff g2)))
                      (mkErrCtx TSK_ERR_IMG_UNKTYPE
                         (snprintf EmptyString (TSK_ERRSTR_L b) "EWF or AFF")
                         EmptyString))
                   (trace s ++ [EvAffOpen images a_ssize;
                                EvEwfOpen num_img images a_ssize;
                                EvClose h_aff; EvClose h_ewf]))).
  { rewrite tsk_img_open_detect by assumption.
    unfold bind at 1.
    rewrite (detect_aff_matched b W images a_ssize (reset_state s) h_aff g1
               Haff Ea Hany).
    unfold detect_from_ewf, bind.
    rewrite (detect_ewf_second b W num_img images a_ssize
               (mkCandidate "AFF" h_aff)
               (mkState g1 (trace (reset_state s) ++ [EvAffOpen images a_ssize]))
               h_ewf g2 Hewf Ee).
    cbn [set img_set].
    unfold ret, reset_state. cbn [trace]. now rewrite <- app_assoc. }
  rewrite E. unfold err_code, err_msg, err_msg2, calls_between.
  cbn [fst snd glob ectx trace tsk_errno tsk_errstr tsk_errstr2].
  do 3 (split; [reflexivity|]).
  split; [|split; reflexivity].
  intros HL. rewrite snprintf_fits by (simpl; lia).
  split; [reflexivity|].
  split; [exists EmptyString, " or AFF"; reflexivity|].
  exists "EWF or ", EmptyString; reflexivity.
Qed.

Lemma two_matches_are_ambiguous_witness :
  (1 <> 0)%Z /\ images_at [Some "a.E01"] 0 <> None /\ (0 mod 512)%N = 0%N
  /\ err_msg (snd (tsk_img_open Scenario.unix_full Scenario.both_match 1
                     [Some "a.E01"] TSK_IMG_TYPE_DETECT 0 Scenario.stale))
     = "EWF or AFF"
  /\ calls_between Scenario.stale
       (snd (tsk_img_open Scenario.unix_full Scenario.both_match 1
               [Some "a.E01"] TSK_IMG_TYPE_DETECT 0 Scenario.stale))
       [EvAffOpen [Some "a.E01"] 0; EvEwfOpen 1 [Some "a.E01"] 0;
        EvClose Scenario.aff_img; EvClose Scenario.ewf_img].
Proof.
  assert (H1 : (1 <> 0)%Z) by discriminate.
  assert (H2 : images_at [Some "a.E01"] 0 <> None) by discriminate.
  assert (H3 : (0 mod 512)%N = 0%N) by reflexivity.
  assert (H4 : 11 <= TSK_ERRSTR_L Scenario.unix_full) by (simpl; lia).
  repeat (split; [assumption|]).
  pose proof (two_matches_are_ambiguous Scenario.unix_full Scenario.both_match
                1 [Some "a.E01"] 0 Scenario.stale Scenario.aff_img
                Scenario.ewf_img _ _ H1 H2 H3 eq_refl eq_refl
                eq_refl eq_refl eq_refl) as (_ & _ & _ & Hmsg & _ & Hcalls).
  split; [exact (proj1 (Hmsg H4)) | exact Hcalls].
Defined.

(** C2 as stated fails on the secondary message: with both probes
    matching, [tsk_errstr2] is empty and names neither format; the two
    names are in the primary message. *)
Lemma ambiguous_secondary_message_counterexample :
  fst (tsk_img_open Scenario.unix_full Scenario.both_match 1 [Some "a.E01"]
         TSK_IMG_TYPE_DETECT 0 Scenario.start) = None
  /\ err_code (snd (tsk_img_open Scenario.unix_full Scenario.both_match 1
                      [Some "a.E01"] TSK_IMG_TYPE_DETECT 0 Scenario.start))
     = TSK_ERR_IMG_UNKTYPE
  /\ err_msg2 (snd (tsk_img_open Scenario.unix_full Scenario.both_match 1
                      [Some "a.E01"] TSK_IMG_TYPE_DETECT 0 Scenario.start))
     = EmptyString
  /\ ~ contains "AFF"
         (err_msg2 (snd (tsk_img_open Scenario.unix_full Scenario.both_match 1
                           [Some "a.E01"] TSK_IMG_TYPE_DETECT 0 Scenario.start)))
  /\ ~ contains "EWF"
         (err_msg2 (snd (tsk_img_open Scenario.unix_full Scenario.both_match 1
                           [Some "a.E01"] TSK_IMG_TYPE_DETECT 0 Scenario.start))).
Proof.
  repeat split; apply not_contains; reflexivity.
Qed.



(** With EWF alone matching, and with AFF answering with the unspecified
    type first, the EWF handle is returned. *)
Example single_match_ewf :
  fst (tsk_img_open Scenario.unix_full Scenario.only_ewf 1 [Some "a.E01"]
         TSK_IMG_TYPE_DETECT 0 Scenario.start)
  = Some Scenario.ewf_img
  /\ trace (snd (tsk_img_open Scenario.unix_full Scenario.only_ewf 1
                   [Some "a.E01"] TSK_IMG_TYPE_DETECT 0 Scenario.start))
     = [EvAffOpen [Some "a.E01"] 0; EvEwfOpen 1 [Some "a.E01"] 0].
Proof. split; reflexivity. Qed.

(** Lines 142-209 are framed: from the same globals they return the same
    handle and globals and add the same calls, whatever was recorded. *)
Lemma detect_from_ewf_frame {Sys : Type} (b : Build) (W : World Sys)
  num_img images a_ssize cand (g : Glob Sys) (tr : list Event) :
  exists r g' evs,
    forall tr',
      detect_from_ewf b W num_img images a_ssize cand (mkState g tr')
      = (r, mkState g' (tr' ++ evs)).
Proof.
  pose proof (framed_detect_from_ewf b W num_img images a_ssize cand) as F.
  exists (fst (detect_from_ewf b W num_img images a_ssize cand (mkState g []))),
    (glob (snd (detect_from_ewf b W num_img images a_ssize cand (mkState g [])))),
    (trace (snd (detect_from_ewf b W num_img images a_ssize cand (mkState g [])))).
  intros tr'. apply F.
Qed.

(** C6, as the code has it.  During autodetection, when [aff_open]
    returns a handle whose type is [TSK_IMG_TYPE_AFF_ANY]:
    - the handle is closed at once, the close being the call that follows
      the open, and nothing else is closed in the call;
    - it is not counted as a match: a handle that [ewf_open] returns next
      is the result of the call, with no ambiguity raised, and when EWF
      is absent or declines the raw or split driver is tried;
    - it is never what the call returns: a handle returned is one that a
      later [ewf_open], [raw_open] or [split_open] produced;
    - the call is lines 142-209 run on an empty candidate, from the
      globals the close left.  The error record is not reset on this
      branch, as it is after a decline: the call has the outcome of a
      decline (same handle, same globals, same calls, the close apart)
      when the open and the close left the error record clear. *)
Theorem aff_any_is_closed_and_skipped {Sys : Type} (b : Build) (W : World Sys)
  (num_img : Z) (images : list TSK_TCHAR_ptr) (a_ssize : N) (s : State Sys)
  (h : TSK_IMG_INFO) (g1 : Glob Sys) :
  num_img <> 0%Z -> images_at images 0 <> None ->
  (a_ssize mod 512)%N = 0%N ->
  HAVE_LIBAFFLIB b = true ->
  aff_open W images a_ssize (reset_glob (glob s)) = (Some h, g1) ->
  itype h = TSK_IMG_TYPE_AFF_ANY ->
  tsk_img_open b W num_img images TSK_IMG_TYPE_DETECT a_ssize s
  = detect_from_ewf b W num_img images a_ssize None
      (mkState (img_close W h g1)
               (trace s ++ [EvAffOpen images a_ssize; EvClose h]))
  /\ (exists evs,
        calls_between s
          (snd (tsk_img_open b W num_img images TSK_IMG_TYPE_DETECT a_ssize s))
          (EvAffOpen images a_ssize :: EvClose h :: evs)
        /\ count is_close evs = 0)
  /\ (forall h_ewf g2,
        HAVE_LIBEWF b = true ->
        ewf_open W num_img images a_ssize (img_close W h g1) = (Some h_ewf, g2) ->
        tsk_img_open b W num_img images TSK_IMG_TYPE_DETECT a_ssize s
        = (Some h_ewf,
           mkState g2
             (trace s ++ [EvAffOpen images a_ssize; EvClose h;
                          EvEwfOpen num_img images a_ssize])))
  /\ (HAVE_LIBEWF b = false
      \/ fst (ewf_open W num_img images a_ssize (img_close W h g1)) = None ->
      exists evs,
        calls_between s
          (snd (tsk_img_open b W num_img images TSK_IMG_TYPE_DETECT a_ssize s))
          evs
        /\ count is_raw_or_split evs = 1)
  /\ (forall r,
        fst (tsk_img_open b W num_img images TSK_IMG_TYPE_DETECT a_ssize s)
        = Some r ->
        (exists g g', ewf_open W num_img images a_ssize g = (Some r, g'))
        \/ (exists g g', raw_open W (images_at images 0) a_ssize g = (Some r, g'))
        \/ (exists g g', split_open W num_img images a_ssize g = (Some r, g')))
  /\ (ectx (img_close W h g1) = mkErrCtx NO_ERROR EmptyString EmptyString ->
      forall W',
        W' = with_aff_open W (fun _ _ _ => (None, img_close W h g1)) ->
        fst (tsk_img_open b W num_img images TSK_IMG_TYPE_DETECT a_ssize s)
        = fst (tsk_img_open b W' num_img images TSK_IMG_TYPE_DETECT a_ssize s)
        /\ glob (snd (tsk_img_open b W num_img images TSK_IMG_TYPE_DETECT a_ssize s))
           = glob (snd (tsk_img_open b W' num_img images TSK_IMG_TYPE_DETECT
                          a_ssize s))
        /\ exists evs,
             calls_between s
               (snd (tsk_img_open b W' num_img images TSK_IMG_TYPE_DETECT
                       a_ssize s))
               (EvAffOpen images a_ssize :: evs)
             /\ calls_between s
                  (snd (tsk_img_open b W num_img images TSK_IMG_TYPE_DETECT
                          a_ssize s))
                  (EvAffOpen images a_ssize :: EvClose h :: evs)).
Proof.
  intros Hn Hp Hs Haff Ea Hty.
  assert (Hany : is_AFF_ANY (itype h) = true) by (rewrite Hty; reflexivity).
  assert (E : tsk_img_open b W num_img images TSK_IMG_TYPE_DETECT a_ssize s
              = detect_from_ewf b W num_img images a_ssize None
                  (mkState (img_close W h g1)
                     (trace s ++ [EvAffOpen images a_ssize; EvClose h]))).
  { rewrite tsk_img_open_detect by assumption.
    unfold bind at 1.
    rewrite (detect_aff_any b W images a_ssize (reset_state s) h g1
               Haff Ea Hany).
    reflexivity. }
  destruct (detect_from_ewf_frame b W num_img images a_ssize None
              (img_close W h g1) []) as (r0 & g' & evs0 & F).
  split; [exact E|].
  remember (tsk_img_open b W num_img images TSK_IMG_TYPE_DETECT a_ssize s)
    as out eqn:Eo.
  split; [|split; [|split; [|split]]].
  - (* closed at once, and nothing else closed *)
    rewrite E. clear Eo E F.
    unfold calls_between, detect_from_ewf, detect_ewf, detect_finish,
      detect_raw, detect_stat.
    generalize (img_close W h g1). intros gc.
    destruct (HAVE_LIBEWF b), (num_img =? 1)%Z; unfold_m;
      repeat first
        [ oracle_step W
        | match goal with
          | |- context [if ?e then _ else _] => destruct e; unfold_m
          end ];
      rewrite <- ?app_assoc; cbn [app];
      (eexists; split; [reflexivity | reflexivity]).
  - (* a later EWF match is the result *)
    intros h_ewf g2 Hewf Ee. rewrite E.
    unfold detect_from_ewf, bind.
    rewrite (detect_ewf_first b W num_img images a_ssize
               (mkState (img_close W h g1)
                  (trace s ++ [EvAffOpen images a_ssize; EvClose h]))
               h_ewf g2 Hewf Ee).
    cbn [detect_finish img_set ret trace]. now rewrite <- app_assoc.
  - (* otherwise raw or split is tried *)
    intros Hno. rewrite E. clear Eo E F.
    unfold calls_between, detect_from_ewf, detect_ewf, detect_finish,
      detect_raw, detect_stat.
    revert Hno. generalize (img_close W h g1). intros gc Hno.
    destruct (HAVE_LIBEWF b) eqn:Hewf.
    + destruct Hno as [Hno|Hno]; [discriminate|].
      destruct (ewf_open W num_img images a_ssize gc) as [re ge] eqn:Ee.
      simpl in Hno. subst re.
      destruct (num_img =? 1)%Z; unfold_m; rewrite Ee; unfold_m;
        repeat first
          [ oracle_step W
          | match goal with
            | |- context [if ?e then _ else _] => destruct e; unfold_m
            end ];
        rewrite <- ?app_assoc; cbn [app];
        (eexists; split; [reflexivity | reflexivity]).
    + destruct (num_img =? 1)%Z; unfold_m;
        repeat first
          [ oracle_step W
          | match goal with
            | |- context [if ?e then _ else _] => destruct e; unfold_m
            end ];
        rewrite <- ?app_assoc; cbn [app];
        (eexists; split; [reflexivity | reflexivity]).
  - (* a handle returned comes from a later open *)
    intros r. rewrite E. clear Eo E F.
    unfold detect_from_ewf, detect_ewf, detect_finish, detect_raw, detect_stat.
    generalize (img_close W h g1). intros gc.
    destruct (HAVE_LIBEWF b), (num_img =? 1)%Z; unfold_m;
      repeat first
        [ oracle_step W
        | match goal with
          | |- context [if ?e then _ else _] => destruct e; unfold_m
          end ];
      intros Hr; try discriminate Hr; inversion Hr; subst; eauto 6.
  - (* the outcome of a decline, the error record being clear *)
    intros Hclear W' ->.
    assert (E' : tsk_img_open b
                   (with_aff_open W (fun _ _ _ => (None, img_close W h g1)))
                   num_img images TSK_IMG_TYPE_DETECT a_ssize s
                 = detect_from_ewf b W num_img images a_ssize None
                     (mkState (img_close W h g1)
                        (trace s ++ [EvAffOpen images a_ssize]))).
    { rewrite tsk_img_open_detect by assumption.
      unfold bind at 1.
      rewrite (detect_aff_declined b
                 (with_aff_open W (fun _ _ _ => (None, img_close W h g1)))
                 images a_ssize (reset_state s)
                 (img_close W h g1) Haff eq_refl).
      unfold reset_glob, tsk_error_reset. rewrite <- Hclear.
      destruct (img_close W h g1). reflexivity. }
    rewrite E, E', !F. cbn [fst snd glob].
    split; [reflexivity|]. split; [reflexivity|].
    exists evs0. unfold calls_between. simpl.
    now rewrite <- !app_assoc.
Qed.

Lemma aff_any_is_closed_and_skipped_witness :
  (1 <> 0)%Z /\ images_at [Some "a.dd"] 0 <> None /\ (0 mod 512)%N = 0%N
  /\ itype Scenario.aff_any_img = TSK_IMG_TYPE_AFF_ANY
  /\ tsk_img_open Scenario.unix_full Scenario.aff_any 1 [Some "a.dd"]
       TSK_IMG_TYPE_DETECT 0 Scenario.stale
     = detect_from_ewf Scenario.unix_full Scenario.aff_any 1 [Some "a.dd"] 0
         None
         (mkState (mkGlob tt (mkErrCtx NO_ERROR EmptyString EmptyString))
                  [EvAffOpen [Some "a.dd"] 0; EvClose Scenario.aff_any_img])
  /\ fst (tsk_img_open Scenario.unix_full Scenario.aff_any 1 [Some "a.dd"]
            TSK_IMG_TYPE_DETECT 0 Scenario.stale)
     = fst (tsk_img_open Scenario.unix_full
              (with_aff_open Scenario.aff_any
                 (fun _ _ _ =>
                    (None,
                     mkGlob tt (mkErrCtx NO_ERROR EmptyString EmptyString))))
              1 [Some "a.dd"] TSK_IMG_TYPE_DETECT 0 Scenario.stale).
Proof.
  assert (H1 : (1 <> 0)%Z) by discriminate.
  assert (H2 : images_at [Some "a.dd"] 0 <> None) by discriminate.
  assert (H3 : (0 mod 512)%N = 0%N) by reflexivity.
  do 4 (split; [first [assumption | reflexivity]|]).
  pose proof (aff_any_is_closed_and_skipped Scenario.unix_full
                Scenario.aff_any 1 [Some "a.dd"] 0 Scenario.stale
                Scenario.aff_any_img _ H1 H2 H3 eq_refl eq_refl eq_refl)
    as (Hrun & _ & _ & _ & _ & Hdecl).
  split; [exact Hrun|].
  exact (proj1 (Hdecl eq_refl _ eq_refl)).
Defined.

(** C6 as stated fails on "as if the AFF backend had declined" when the
    AFF open hands out its handle of the unspecified type and leaves an
    error code.  In a build with AFFLIB alone, with nothing else
    recognising the image: the code is still there when [raw_open]
    returns [NULL], so the call ends on it without calling [stat]; with
    AFF declining and leaving the same code, the record is reset, [stat]
    is called and the call ends on [TSK_ERR_IMG_UNKTYPE]. *)
Lemma aff_any_unlike_decline_counterexample :
  aff_open Scenario.aff_any_dirty [Some "a.dd"] 0
    (reset_glob (glob Scenario.start))
  = (Some Scenario.aff_any_img,
     mkGlob tt (mkErrCtx TSK_ERR_IMG_MAGIC "aff_open" EmptyString))
  /\ tsk_img_open Scenario.unix_aff_only Scenario.aff_any_dirty 1
       [Some "a.dd"] TSK_IMG_TYPE_DETECT 0 Scenario.start
     = (None,
        mkState (mkGlob tt (mkErrCtx TSK_ERR_IMG_MAGIC "aff_open" EmptyString))
          [EvAffOpen [Some "a.dd"] 0; EvClose Scenario.aff_any_img;
           EvRawOpen (Some "a.dd") 0])
  /\ tsk_img_open Scenario.unix_aff_only Scenario.aff_declines_dirty 1
       [Some "a.dd"] TSK_IMG_TYPE_DETECT 0 Scenario.start
     = (None,
        mkState (mkGlob tt (mkErrCtx TSK_ERR_IMG_UNKTYPE EmptyString EmptyString))
          [EvAffOpen [Some "a.dd"] 0; EvRawOpen (Some "a.dd") 0;
           EvStat (Some "a.dd")]).
Proof. repeat split. Qed.

(** The handle of the unspecified type is closed and the raw handle is
    returned. *)
Example aff_any_falls_back_to_raw :
  fst (tsk_img_open Scenario.unix_full Scenario.aff_any 1 [Some "a.dd"]
         TSK_IMG_TYPE_DETECT 0 Scenario.start)
  = Some Scenario.raw_img
  /\ trace (snd (tsk_img_open Scenario.unix_full Scenario.aff_any 1
                   [Some "a.dd"] TSK_IMG_TYPE_DETECT 0 Scenario.start))
     = [EvAffOpen [Some "a.dd"] 0; EvClose Scenario.aff_any_img;
        EvEwfOpen 1 [Some "a.dd"] 0; EvRawOpen (Some "a.dd") 0].
Proof. split; reflexivity. Qed.

(** ** The diagnosis after an undecided fallback *)

(** Comparing the first characters against a literal of that length is
    the test that the literal starts the string. *)
Lemma strncmp_literal_prefix (lit p : string) :
  strncmp_eq0 lit p (String.length lit) = prefix lit p.
Proof.
  unfold strncmp_eq0. rewrite (substring_whole lit) by lia.
  revert p. induction lit as [|c lit IH]; intros p.
  - destruct p; reflexivity.
  - destruct p as [|d q]; [reflexivity|].
    cbn [String.length substring String.eqb prefix].
    destruct (Ascii.eqb_spec c d) as [Hcd|Hcd];
      destruct (ascii_dec c d) as [e|n];
      first [apply IH | congruence].
Qed.

Section Diagnosis.

Context {Sys : Type}.
Variable b : Build.
Variable W : World Sys.

(** Lines 183-209 on the outcome [(rc, g4)] of [stat]. *)
Lemma detect_stat_run images (s : State Sys) rc g4 :
  TSTAT W (images_at images 0) (glob s) = (rc, g4) ->
  detect_stat b W images s
  = (None,
     mkState
       (if (rc <? 0)%Z
           && negb ((TSK_WIN32 b || CYGWIN b)
                    && prefix win_object_prefix (c_str (images_at images 0)))
        then
          mkGlob (sys g4)
            (mkErrCtx TSK_ERR_IMG_STAT
               (snprintf EmptyString (TSK_ERRSTR_L b)
                  (c_str (images_at images 0) ++ " : "
                   ++ strerror_errno W (sys g4)))
               EmptyString)
        else
          mkGlob (sys g4) (mkErrCtx TSK_ERR_IMG_UNKTYPE EmptyString EmptyString))
       (trace s ++ [EvStat (images_at images 0)])).
Proof.
  intros E. destruct s as [g tr]. cbn [glob] in E.
  unfold detect_stat.
  change 4 with (String.length win_object_prefix). rewrite strncmp_literal_prefix.
  unfold_m. rewrite E.
  destruct (rc <? 0)%Z; [|reflexivity].
  destruct ((TSK_WIN32 b || CYGWIN b)
            && prefix win_object_prefix (c_str (images_at images 0))); reflexivity.
Qed.

End Diagnosis.

(** C7, as the code has it.  During autodetection, when the AFF and EWF
    blocks end without a candidate and the raw or split attempt returns
    no handle and leaves [tsk_errno] 0, [tsk_img_open] calls [stat] on
    the first path and returns no handle.  If [stat] fails, and on a
    Windows or Cygwin build the path does not start with [\\.\], the
    code is [TSK_ERR_IMG_STAT] and the message is the text
    "<path> : <strerror(errno)>" cut to the [TSK_ERRSTR_L - 1] characters
    that [tsk_errstr] holds: it contains the path and the reason whenever
    the text is shorter than [TSK_ERRSTR_L].  Otherwise the code is
    [TSK_ERR_IMG_UNKTYPE] and both messages are empty. *)
Theorem undecided_fallback_diagnosis {Sys : Type} (b : Build) (W : World Sys)
  (num_img : Z) (images : list TSK_TCHAR_ptr) (a_ssize : N)
  (s s2 : State Sys) (g3 g4 : Glob Sys) (rc : Z) :
  num_img <> 0%Z -> images_at images 0 <> None ->
  (a_ssize mod 512)%N = 0%N ->
  bind (detect_aff b W images a_ssize)
       (detect_ewf b W num_img images a_ssize) (reset_state s)
  = (inr None, s2) ->
  (if (num_img =? 1)%Z
   then raw_open W (images_at images 0) a_ssize
   else split_open W num_img images a_ssize) (glob s2) = (None, g3) ->
  tsk_errno (ectx g3) = NO_ERROR ->
  TSTAT W (images_at images 0) g3 = (rc, g4) ->
  fst (tsk_img_open b W num_img images TSK_IMG_TYPE_DETECT a_ssize s) = None
  /\ (exists evs,
        calls_between s
          (snd (tsk_img_open b W num_img images TSK_IMG_TYPE_DETECT a_ssize s))
          (evs ++ [EvStat (images_at images 0)]))
  /\ ((rc < 0)%Z ->
      ((TSK_WIN32 b || CYGWIN b) = true ->
       prefix win_object_prefix (c_str (images_at images 0)) = false) ->
      err_code (snd (tsk_img_open b W num_img images TSK_IMG_TYPE_DETECT a_ssize s))
      = TSK_ERR_IMG_STAT
      /\ err_msg (snd (tsk_img_open b W num_img images TSK_IMG_TYPE_DETECT a_ssize s))
         = snprintf EmptyString (TSK_ERRSTR_L b)
             (c_str (images_at images 0) ++ " : " ++ strerror_errno W (sys g4))
      /\ (String.length
            (c_str (images_at images 0) ++ " : " ++ strerror_errno W (sys g4))
          < TSK_ERRSTR_L b ->
          contains (c_str (images_at images 0))
            (err_msg (snd (tsk_img_open b W num_img images TSK_IMG_TYPE_DETECT
                             a_ssize s)))
          /\ contains (strerror_errno W (sys g4))
               (err_msg (snd (tsk_img_open b W num_img images
                                TSK_IMG_TYPE_DETECT a_ssize s)))))
  /\ ((0 <= rc)%Z
      \/ ((TSK_WIN32 b || CYGWIN b) = true
          /\ prefix win_object_prefix (c_str (images_at images 0)) = true) ->
      err_code (snd (tsk_img_open b W num_img images TSK_IMG_TYPE_DETECT a_ssize s))
      = TSK_ERR_IMG_UNKTYPE
      /\ err_msg (snd (tsk_img_open b W num_img images TSK_IMG_TYPE_DETECT a_ssize s))
         = EmptyString
      /\ err_msg2 (snd (tsk_img_open b W num_img images TSK_IMG_TYPE_DETECT a_ssize s))
         = EmptyString).
Proof.
  intros Hn Hp Hs Hnon Hraw Herr Hstat.
  remember (tsk_img_open b W num_img images TSK_IMG_TYPE_DETECT a_ssize s)
    as out eqn:Eo.
  rewrite tsk_img_open_detect in Eo by assumption.
  unfold bind at 1 in Eo. unfold bind in Hnon.
  destruct (detect_aff b W images a_ssize (reset_state s)) as [cand s1] eqn:Ea.
  unfold detect_from_ewf, bind in Eo. rewrite Hnon in Eo.
  assert (Htr : exists evs, trace s2 = (trace s ++ evs)%list).
  { pose proof (detect_aff_calls b W images a_ssize (reset_state s))
      as (evs1 & Hc1 & _).
    rewrite Ea in Hc1. unfold calls_between in Hc1. simpl in Hc1.
    revert Hnon. unfold detect_ewf.
    destruct (HAVE_LIBEWF b); unfold_m.
    - destruct s1 as [gs1 tr1]. simpl in Hc1. subst tr1.
      destruct (ewf_open W num_img images a_ssize gs1) as [[he|] ge];
        [destruct cand|]; intros Hnon; inversion Hnon; subst.
      + exists (evs1 ++ [EvEwfOpen num_img images a_ssize])%list.
        simpl. now rewrite <- app_assoc.
    - intros Hnon. inversion Hnon; subst. exists evs1. exact Hc1. }
  destruct Htr as (evs & Htr).
  assert (E : out
              = detect_stat b W images
                  (mkState g3
                     (trace s2 ++
                      [if (num_img =? 1)%Z
                       then EvRawOpen (images_at images 0) a_ssize
                       else EvSplitOpen num_img images a_ssize]))).
  { rewrite Eo. unfold detect_finish, detect_raw. unfold bind at 1.
    destruct s2 as [gs2 tr2]. cbn [glob trace] in *.
    destruct (num_img =? 1)%Z; unfold call; cbn [glob trace];
      rewrite Hraw; unfold bind, get_tsk_errno; cbn [glob ectx];
      rewrite Herr; reflexivity. }
  rewrite (detect_stat_run b W images (mkState g3 _) rc g4 Hstat) in E.
  clear Eo. subst out. cbn [fst snd trace].
  unfold err_code, err_msg, err_msg2. cbn [glob].
  split; [reflexivity|]. split; [|split].
  - exists (evs ++ [if (num_img =? 1)%Z
                    then EvRawOpen (images_at images 0) a_ssize
                    else EvSplitOpen num_img images a_ssize])%list.
    unfold calls_between. cbn [trace]. rewrite Htr.
    now rewrite <- !app_assoc.
  - intros Hrc Hdev.
    apply Z.ltb_lt in Hrc. rewrite Hrc.
    assert (Hc : (TSK_WIN32 b || CYGWIN b)
                 && prefix win_object_prefix (c_str (images_at images 0)) = false).
    { destruct (TSK_WIN32 b || CYGWIN b); [|reflexivity].
      rewrite Hdev by reflexivity. reflexivity. }
    rewrite Hc. cbn [andb negb ectx tsk_errno tsk_errstr].
    split; [reflexivity|]. split; [reflexivity|].
    intros Hfit. rewrite snprintf_fits by exact Hfit. split.
    + apply contains_prefix.
    + apply contains_app_l. apply contains_app_l.
      apply contains_refl.
  - intros Hcase.
    assert (Hc : (rc <? 0)%Z
                 && negb ((TSK_WIN32 b || CYGWIN b)
                          && prefix win_object_prefix (c_str (images_at images 0)))
                 = false).
    { destruct Hcase as [Hrc|(Hw & Hpre)].
      - apply Z.ltb_ge in Hrc. rewrite Hrc. reflexivity.
      - rewrite Hw, Hpre. apply andb_false_r. }
    rewrite Hc. repeat split.
Qed.

Lemma undecided_fallback_diagnosis_witness :
  (1 <> 0)%Z /\ images_at [Some "a.dd"] 0 <> None /\ (0 mod 512)%N = 0%N
  /\ (-1 < 0)%Z
  /\ err_code (snd (tsk_img_open Scenario.unix_full Scenario.missing_file 1
                      [Some "a.dd"] TSK_IMG_TYPE_DETECT 0 Scenario.stale))
     = TSK_ERR_IMG_STAT
  /\ contains "a.dd"
       (err_msg (snd (tsk_img_open Scenario.unix_full Scenario.missing_file 1
                        [Some "a.dd"] TSK_IMG_TYPE_DETECT 0 Scenario.stale)))
  /\ contains "No such file or directory"
       (err_msg (snd (tsk_img_open Scenario.unix_full Scenario.missing_file 1
                        [Some "a.dd"] TSK_IMG_TYPE_DETECT 0 Scenario.stale))).
Proof.
  assert (H1 : (1 <> 0)%Z) by discriminate.
  assert (H2 : images_at [Some "a.dd"] 0 <> None) by discriminate.
  assert (H3 : (0 mod 512)%N = 0%N) by reflexivity.
  assert (H4 : (-1 < 0)%Z) by reflexivity.
  repeat (split; [assumption|]).
  pose proof (undecided_fallback_diagnosis Scenario.unix_full
                Scenario.missing_file 1 [Some "a.dd"] 0 Scenario.stale
                _ _ _ (-1) H1 H2 H3 eq_refl eq_refl eq_refl eq_refl)
    as (_ & _ & Hstat & _).
  destruct (Hstat H4 (fun H => False_ind _ (Bool.diff_false_true H)))
    as (Hcode & _ & Hfit).
  split; [exact Hcode|].
  apply Hfit. simpl. lia.
Defined.

(** With [stat] succeeding the code is [UNKTYPE] and the messages are
    empty; so it is on a Windows build for a device path on which [stat]
    fails. *)
Example unknown_type_on_readable_file :
  ectx (glob (snd (tsk_img_open Scenario.unix_full Scenario.quiet 1
                     [Some "a.dd"] TSK_IMG_TYPE_DETECT 0 Scenario.stale)))
  = mkErrCtx TSK_ERR_IMG_UNKTYPE EmptyString EmptyString.
Proof. reflexivity. Qed.

Example unknown_type_on_windows_device :
  ectx (glob (snd (tsk_img_open Scenario.win32_full Scenario.missing_file 1
                     [Some "\\.\PhysicalDrive0"] TSK_IMG_TYPE_DETECT 0
                     Scenario.stale)))
  = mkErrCtx TSK_ERR_IMG_UNKTYPE EmptyString EmptyString.
Proof. reflexivity. Qed.

(** C7 as stated fails for a long path.  With a file name of 520
    characters, on which [stat] fails with "File name too long", and the
    512-byte [tsk_errstr], the [STAT] message is the first 511 characters
    of the name: it holds neither the reason nor the whole path. *)
Lemma stat_message_truncated_counterexample :
  err_code (snd (tsk_img_open Scenario.unix_full Scenario.name_too_long 1
                   [Some Scenario.long_name] TSK_IMG_TYPE_DETECT 0
                   Scenario.start))
  = TSK_ERR_IMG_STAT
  /\ err_msg (snd (tsk_img_open Scenario.unix_full Scenario.name_too_long 1
                     [Some Scenario.long_name] TSK_IMG_TYPE_DETECT 0
                     Scenario.start))
     = replicate 511 "a"%char
  /\ ~ contains "File name too long"
         (err_msg (snd (tsk_img_open Scenario.unix_full Scenario.name_too_long
                          1 [Some Scenario.long_name] TSK_IMG_TYPE_DETECT 0
                          Scenario.start)))
  /\ ~ contains Scenario.long_name
         (err_msg (snd (tsk_img_open Scenario.unix_full Scenario.name_too_long
                          1 [Some Scenario.long_name] TSK_IMG_TYPE_DETECT 0
                          Scenario.start))).
Proof.
  split; [vm_compute; reflexivity|].
  split; [vm_compute; reflexivity|].
  split; apply not_contains; vm_compute; reflexivity.
Qed.

(** ** An empty first path *)

Section EmptyPath.

Context {Sys : Type}.
Variable b : Build.
Variable W : World Sys.

(** A sector size that the validation turns down ends the call on
    [TSK_ERR_IMG_ARG] with nothing called, whatever the paths. *)
Lemma bad_sector_size_rejected num_img images type a_ssize (s : State Sys) :
  num_img <> 0%Z -> images_at images 0 <> None ->
  bad_sector_size a_ssize ->
  fst (tsk_img_open b W num_img images type a_ssize s) = None
  /\ err_code (snd (tsk_img_open b W num_img images type a_ssize s))
     = TSK_ERR_IMG_ARG
  /\ calls_between s (snd (tsk_img_open b W num_img images type a_ssize s)) [].
Proof.
  intros Hn Hp Hb. pose proof Hb as (Hnz & _).
  apply bad_sector_size_iff in Hb.
  remember (tsk_img_open b W num_img images type a_ssize s) as out eqn:Eo.
  unfold tsk_img_open in Eo. unfold bind at 1 in Eo.
  unfold error_reset at 1, modify_ectx at 1 in Eo.
  apply Z.eqb_neq in Hn. rewrite Hn in Eo.
  destruct (images_at images 0); [|congruence]. cbn [is_NULL orb] in Eo.
  apply N.eqb_neq in Hb. rewrite Hb in Eo. cbn [negb] in Eo.
  unfold calls_between.
  destruct ((0 <? a_ssize)%N && (a_ssize <? 512)%N);
    revert Eo; unfold_m; intros ->; cbn [fst snd];
    rewrite app_nil_r; repeat split.
Qed.

(** The AFF and EWF blocks only add to the record of calls. *)
Lemma nonraw_blocks_calls num_img images a_ssize (s0 s2 : State Sys) r :
  bind (detect_aff b W images a_ssize)
       (detect_ewf b W num_img images a_ssize) s0 = (r, s2) ->
  exists evs, trace s2 = (trace s0 ++ evs)%list.
Proof.
  unfold bind, detect_aff, detect_ewf.
  destruct s0 as [g0 tr0].
  destruct (HAVE_LIBAFFLIB b), (HAVE_LIBEWF b); unfold_m;
    repeat first
      [ oracle_step W
      | match goal with
        | |- context [if ?e then _ else _] => destruct e; unfold_m
        end ];
    intros E; inversion E; subst; rewrite <- ?app_assoc;
    first [ (exists []; now rewrite app_nil_r) | (eexists; reflexivity) ].
Qed.

(** When the two blocks leave no candidate and the raw or split attempt
    returns [NULL] with [tsk_errno] 0, the last call is [stat] on the
    first path. *)
Lemma undecided_ends_with_stat num_img images a_ssize (s s2 : State Sys) g3 :
  num_img <> 0%Z -> images_at images 0 <> None ->
  (a_ssize mod 512)%N = 0%N ->
  bind (detect_aff b W images a_ssize)
       (detect_ewf b W num_img images a_ssize) (reset_state s)
  = (inr None, s2) ->
  (if (num_img =? 1)%Z
   then raw_open W (images_at images 0) a_ssize
   else split_open W num_img images a_ssize) (glob s2) = (None, g3) ->
  tsk_errno (ectx g3) = NO_ERROR ->
  exists evs,
    calls_between s
      (snd (tsk_img_open b W num_img images TSK_IMG_TYPE_DETECT a_ssize s))
      (evs ++ [EvStat (images_at images 0)]).
Proof.
  intros Hn Hp Hs Hnon Hraw Herr.
  destruct (nonraw_blocks_calls _ _ _ _ _ _ Hnon) as (evs & Htr).
  remember (tsk_img_open b W num_img images TSK_IMG_TYPE_DETECT a_ssize s)
    as out eqn:Eo.
  rewrite tsk_img_open_detect in Eo by assumption.
  unfold bind at 1 in Eo. unfold bind in Hnon.
  destruct (detect_aff b W images a_ssize (reset_state s)) as [cand s1].
  unfold detect_from_ewf, bind in Eo. rewrite Hnon in Eo.
  unfold detect_finish, detect_raw in Eo. unfold bind at 1 in Eo.
  destruct s2 as [gs2 tr2]. cbn [glob trace] in *.
  destruct (TSTAT W (images_at images 0) g3) as [rc g4] eqn:Hstat.
  assert (E : out
              = detect_stat b W images
                  (mkState g3
                     (tr2 ++
                      [if (num_img =? 1)%Z
                       then EvRawOpen (images_at images 0) a_ssize
                       else EvSplitOpen num_img images a_ssize]))).
  { rewrite Eo.
    destruct (num_img =? 1)%Z; unfold call; cbn [glob trace];
      rewrite Hraw; unfold bind, get_tsk_errno; cbn [glob ectx];
      rewrite Herr; reflexivity. }
  rewrite (detect_stat_run b W images (mkState g3 _) rc g4 Hstat) in E.
  rewrite E. unfold calls_between. cbn [snd trace].
  exists (evs ++ [if (num_img =? 1)%Z
                  then EvRawOpen (images_at images 0) a_ssize
                  else EvSplitOpen num_img images a_ssize])%list.
  rewrite Htr. now rewrite <- !app_assoc.
Qed.

End EmptyPath.

(** C10, as the code has it.  A call whose first path is the empty
    string (a non-null pointer), with a nonzero count, is not stopped by
    the [NOFILE] check, which looks at the count and at the pointer only:
    the call never ends as the [NOFILE] rejection.  The empty path is
    then treated as any path.  A sector size that fails the validation
    still ends the call on [ARG] with nothing called.  With a sector size
    that passes: under autodetection the first call is a driver's open on
    the caller's paths, the empty one included, and when the non-raw
    blocks leave no candidate and the raw or split attempt returns [NULL]
    without a code, the last call is [stat] on the empty path; with
    [TSK_IMG_TYPE_RAW_SING] or [TSK_IMG_TYPE_RAW_SPLIT] the one call made
    is [raw_open] on the empty path or [split_open] on the paths, by the
    count; with an AFF type and AFFLIB it is [aff_open] on the paths,
    with the EWF type and LIBEWF [ewf_open] on the paths. *)
Theorem empty_string_path_passes_NOFILE_check {Sys : Type} (b : Build)
  (W : World Sys) (num_img : Z) (rest : list TSK_TCHAR_ptr)
  (type : TSK_IMG_TYPE_ENUM) (a_ssize : N) (s : State Sys) :
  num_img <> 0%Z ->
  ~ (no_backend_touched s
       (snd (tsk_img_open b W num_img (Some EmptyString :: rest) type a_ssize s))
     /\ err_code (snd (tsk_img_open b W num_img (Some EmptyString :: rest) type a_ssize s))
        = TSK_ERR_IMG_NOFILE)
  /\ ((a_ssize mod 512)%N = 0%N ->
      tsk_img_open b W num_img (Some EmptyString :: rest) type a_ssize s
      = match type with
        | TSK_IMG_TYPE_DETECT => detect b W num_img (Some EmptyString :: rest) a_ssize
        | _ => open_as b W num_img (Some EmptyString :: rest) type a_ssize
        end (reset_state s))
  /\ ((a_ssize mod 512)%N = 0%N -> type = TSK_IMG_TYPE_DETECT ->
      exists ev evs,
        calls_between s
          (snd (tsk_img_open b W num_img (Some EmptyString :: rest) type a_ssize s))
          (ev :: evs)
        /\ In ev [EvAffOpen (Some EmptyString :: rest) a_ssize;
                  EvEwfOpen num_img (Some EmptyString :: rest) a_ssize;
                  EvRawOpen (Some EmptyString) a_ssize;
                  EvSplitOpen num_img (Some EmptyString :: rest) a_ssize])
  /\ (bad_sector_size a_ssize ->
      fst (tsk_img_open b W num_img (Some EmptyString :: rest) type a_ssize s)
      = None
      /\ err_code (snd (tsk_img_open b W num_img (Some EmptyString :: rest)
                          type a_ssize s))
         = TSK_ERR_IMG_ARG
      /\ calls_between s
           (snd (tsk_img_open b W num_img (Some EmptyString :: rest) type
                   a_ssize s)) [])
  /\ ((a_ssize mod 512)%N = 0%N -> type = TSK_IMG_TYPE_DETECT ->
      forall s2 g3,
        bind (detect_aff b W (Some EmptyString :: rest) a_ssize)
             (detect_ewf b W num_img (Some EmptyString :: rest) a_ssize)
             (reset_state s) = (inr None, s2) ->
        (if (num_img =? 1)%Z
         then raw_open W (Some EmptyString) a_ssize
         else split_open W num_img (Some EmptyString :: rest) a_ssize) (glob s2)
        = (None, g3) ->
        tsk_errno (ectx g3) = NO_ERROR ->
        exists evs,
          calls_between s
            (snd (tsk_img_open b W num_img (Some EmptyString :: rest) type
                    a_ssize s))
            (evs ++ [EvStat (Some EmptyString)]))
  /\ ((a_ssize mod 512)%N = 0%N -> type = TSK_IMG_TYPE_RAW_SING ->
      calls_between s
        (snd (tsk_img_open b W num_img (Some EmptyString :: rest) type a_ssize s))
        [if (1 <? num_img)%Z
         then EvSplitOpen num_img (Some EmptyString :: rest) a_ssize
         else EvRawOpen (Some EmptyString) a_ssize])
  /\ ((a_ssize mod 512)%N = 0%N -> type = TSK_IMG_TYPE_RAW_SPLIT ->
      calls_between s
        (snd (tsk_img_open b W num_img (Some EmptyString :: rest) type a_ssize s))
        [if (num_img =? 1)%Z
         then EvRawOpen (Some EmptyString) a_ssize
         else EvSplitOpen num_img (Some EmptyString :: rest) a_ssize])
  /\ ((a_ssize mod 512)%N = 0%N -> HAVE_LIBAFFLIB b = true ->
      In type [TSK_IMG_TYPE_AFF_AFF; TSK_IMG_TYPE_AFF_AFD;
               TSK_IMG_TYPE_AFF_AFM; TSK_IMG_TYPE_AFF_ANY] ->
      calls_between s
        (snd (tsk_img_open b W num_img (Some EmptyString :: rest) type a_ssize s))
        [EvAffOpen (Some EmptyString :: rest) a_ssize])
  /\ ((a_ssize mod 512)%N = 0%N -> HAVE_LIBEWF b = true ->
      type = TSK_IMG_TYPE_EWF_EWF ->
      calls_between s
        (snd (tsk_img_open b W num_img (Some EmptyString :: rest) type a_ssize s))
        [EvEwfOpen num_img (Some EmptyString :: rest) a_ssize]).
Proof.
  intros Hn.
  assert (Hp : images_at (Some EmptyString :: rest) 0 <> None) by discriminate.
  split; [|split; [|split; [|split; [|split; [|split; [|split; [|split]]]]]]].
  - intros (Hnb & He).
    destruct (N.eq_dec (a_ssize mod 512) 0) as [Hs|Hs].
    + rewrite (validated_not_rejected b W _ _ _ _ s Hn Hp Hs Hnb) in He.
      discriminate.
    + apply bad_sector_size_iff in Hs.
      destruct (bad_sector_size_rejected b W num_img _ type a_ssize s Hn Hp Hs)
        as (_ & Hc & _).
      rewrite Hc in He. discriminate.
  - intros Hs. apply tsk_img_open_validated; assumption.
  - intros Hs ->.
    rewrite (tsk_img_open_validated b W _ _ TSK_IMG_TYPE_DETECT _ s Hn Hp Hs).
    destruct (detect_first_call b W num_img (Some EmptyString :: rest) a_ssize
                (reset_state s)) as (ev & evs & Hc & Hin).
    exists ev, evs. split; [exact Hc | exact Hin].
  - intros Hb. apply bad_sector_size_rejected; assumption.
  - intros Hs -> s2 g3 Hnon Hraw Herr.
    exact (undecided_ends_with_stat b W num_img (Some EmptyString :: rest)
             a_ssize s s2 g3 Hn Hp Hs Hnon Hraw Herr).
  - intros Hs ->.
    rewrite tsk_img_open_validated by assumption.
    unfold open_as, calls_between, call, reset_state. cbn [glob trace images_at nth].
    destruct (1 <? num_img)%Z;
      match goal with |- context [let (_, _) := ?e in _] => destruct e end;
      reflexivity.
  - intros Hs ->.
    rewrite tsk_img_open_validated by assumption.
    unfold open_as, calls_between, call, reset_state. cbn [glob trace images_at nth].
    destruct (num_img =? 1)%Z;
      match goal with |- context [let (_, _) := ?e in _] => destruct e end;
      reflexivity.
  - intros Hs Ha Hin.
    rewrite tsk_img_open_validated by assumption.
    unfold open_as, calls_between, call, reset_state. cbn [glob trace].
    simpl in Hin.
    destruct Hin as [<-|[<-|[<-|[<-|[]]]]]; rewrite Ha;
      match goal with |- context [let (_, _) := ?e in _] => destruct e end;
      reflexivity.
  - intros Hs He ->.
    rewrite tsk_img_open_validated by assumption.
    unfold open_as, calls_between, call, reset_state. cbn [glob trace].
    rewrite He.
    match goal with |- context [let (_, _) := ?e in _] => destruct e end.
    reflexivity.
Qed.

Lemma empty_string_path_passes_NOFILE_check_witness :
  (1 <> 0)%Z
  /\ (0 mod 512)%N = 0%N
  /\ calls_between Scenario.stale
       (snd (tsk_img_open Scenario.unix_plain Scenario.quiet 1
               [Some EmptyString] TSK_IMG_TYPE_RAW_SPLIT 0 Scenario.stale))
       [EvRawOpen (Some EmptyString) 0]
  /\ exists evs,
       calls_between Scenario.stale
         (snd (tsk_img_open Scenario.unix_plain Scenario.quiet 1
                 [Some EmptyString] TSK_IMG_TYPE_DETECT 0 Scenario.stale))
         (evs ++ [EvStat (Some EmptyString)]).
Proof.
  assert (H1 : (1 <> 0)%Z) by discriminate.
  assert (H2 : (0 mod 512)%N = 0%N) by reflexivity.
  do 2 (split; [assumption|]).
  split.
  - exact (proj1 (proj2 (proj2 (proj2 (proj2 (proj2 (proj2
      (empty_string_path_passes_NOFILE_check Scenario.unix_plain
         Scenario.quiet 1 [] TSK_IMG_TYPE_RAW_SPLIT 0 Scenario.stale H1)))))))
      H2 eq_refl).
  - exact (proj1 (proj2 (proj2 (proj2 (proj2
      (empty_string_path_passes_NOFILE_check Scenario.unix_plain
         Scenario.quiet 1 [] TSK_IMG_TYPE_DETECT 0 Scenario.stale H1)))))
      H2 eq_refl _ _ eq_refl eq_refl eq_refl).
Defined.

(** C10 as stated fails on "passes validation and is handed to the
    backends or to the stat-based diagnosis" at the sector size 100: the
    empty first path passes the [NOFILE] check, and the call ends on
    [ARG] with no driver and no [stat] called. *)
Lemma empty_string_path_bad_sector_counterexample :
  tsk_img_open Scenario.unix_full Scenario.only_raw 1 [Some EmptyString]
    TSK_IMG_TYPE_DETECT 100 Scenario.start
  = (None,
     mkState
       (mkGlob tt
          (mkErrCtx TSK_ERR_IMG_ARG "sector size is less than 512 bytes (100)"
             EmptyString))
       []).
Proof. reflexivity. Qed.

(** ** The UTF-8 entry point *)

Section Utf8.

Context {Sys : Type}.
Variable b : Build.
Variable W : World Sys.

Lemma images_at_middle (done rest : list TSK_TCHAR_ptr) (p : TSK_TCHAR_ptr) :
  images_at (done ++ p :: rest) (List.length done) = p.
Proof.
  unfold images_at. induction done as [|d done IH]; simpl; [reflexivity|].
  exact IH.
Qed.

(** The loop stops at the first path that does not convert: the paths
    before it were converted, it was tried, and nothing else was done. *)
Lemma utf8_to_utf16_stops (pre : list string) :
  forall (done : list TSK_TCHAR_ptr) (n : nat) (acc : list TSK_TCHAR_ptr)
         (s : State Sys) (p : string) (post : list string),
    (forall sz g, fst (tsk_malloc W sz g) = true) ->
    Forall (fun q => fst (tsk_UTF8toUTF16 W q) = TSKconversionOK b) pre ->
    fst (tsk_UTF8toUTF16 W p) <> TSKconversionOK b ->
    List.length pre < n ->
    exists s',
      utf8_to_utf16 b W n (List.length done)
        (done ++ map Some (pre ++ p :: post)) acc s = (None, s')
      /\ trace s' = (trace s ++ map EvConvert (pre ++ [p]))%list
      /\ err_code s' = TSK_ERR_IMG_CONVERT
      /\ exists old,
           err_msg s'
           = snprintf old (TSK_ERRSTR_L b)
               (convert_text p (fst (tsk_UTF8toUTF16 W p))).
Proof.
  induction pre as [|q pre IH]; intros done n acc s p post Hm Hok Hbad Hn.
  - destruct n as [|n]; [simpl in Hn; lia|].
    cbn [utf8_to_utf16 app map].
    rewrite images_at_middle. cbn [c_str].
    destruct s as [g tr]. unfold bind at 1. unfold call_silent at 1.
    cbn [glob trace].
    pose proof (Hm ((Z.of_nat (String.length p) + 1) * sizeof_wchar_t b)%Z g)
      as Hg.
    destruct (tsk_malloc W _ g) as [ok g'] eqn:Em. simpl in Hg. subst ok.
    cbn [negb]. unfold bind at 1. unfold call at 1. cbn [glob trace fst snd].
    apply Z.eqb_neq in Hbad. rewrite Hbad. cbn [negb]. unfold_m.
    eexists. split; [reflexivity|]. cbn [trace glob ectx].
    split; [reflexivity|]. split; [reflexivity|].
    eexists. reflexivity.
  - destruct n as [|n]; [simpl in Hn; lia|].
    cbn [utf8_to_utf16 app map].
    rewrite images_at_middle. cbn [c_str].
    destruct s as [g tr]. unfold bind at 1. unfold call_silent at 1.
    cbn [glob trace].
    pose proof (Hm ((Z.of_nat (String.length q) + 1) * sizeof_wchar_t b)%Z g)
      as Hg.
    destruct (tsk_malloc W _ g) as [ok g'] eqn:Em. simpl in Hg. subst ok.
    cbn [negb]. unfold bind at 1. unfold call at 1. cbn [glob trace fst snd].
    inversion Hok as [|q' pre' Hq Hpre]; subst.
    rewrite Hq, Z.eqb_refl. cbn [negb].
    replace (S (List.length done)) with (List.length (done ++ [Some q]))
      by (rewrite length_app; simpl; lia).
    replace (done ++ Some q :: map Some (pre ++ p :: post))%list
      with ((done ++ [Some q]) ++ map Some (pre ++ p :: post))%list
      by (now rewrite <- app_assoc).
    destruct (IH (done ++ [Some q])%list n
                (acc ++ [Some (snd (tsk_UTF8toUTF16 W q))])%list
                (mkState g' (tr ++ [EvConvert q])) p post Hm Hpre Hbad
                ltac:(simpl in Hn; lia))
      as (s' & Erun & Htr & Hcode & Hmsg).
    exists s'. split; [exact Erun|]. split; [|split; assumption].
    rewrite Htr. cbn [trace]. now rewrite <- app_assoc.
Qed.

End Utf8.

(** C9, as the code has it.  In a [TSK_WIN32] build, with the buffers
    allocated, when a path of [tsk_img_open_utf8] does not convert (the
    ones before it do), the call returns no handle, the code is
    [TSK_ERR_IMG_CONVERT], the paths up to the failing one were handed to
    the converter and nothing else was called -- no later path, no
    driver -- and the message is the text
    "tsk_img_open_utf8: Error converting image <path> <status>" cut to
    the [TSK_ERRSTR_L - 1] characters that [tsk_errstr] holds: it names
    the path and the status whenever the text is shorter than
    [TSK_ERRSTR_L]. *)
Theorem conversion_failure_is_CONVERT {Sys : Type} (b : Build) (W : World Sys)
  (num_img : Z) (pre post : list string) (p : string)
  (type : TSK_IMG_TYPE_ENUM) (a_ssize : N) (s : State Sys) :
  TSK_WIN32 b = true ->
  (forall sz g, fst (tsk_malloc W sz g) = true) ->
  Forall (fun q => fst (tsk_UTF8toUTF16 W q) = TSKconversionOK b) pre ->
  fst (tsk_UTF8toUTF16 W p) <> TSKconversionOK b ->
  (Z.of_nat (List.length pre) < num_img)%Z ->
  fst (tsk_img_open_utf8 b W num_img (map Some (pre ++ p :: post)) type
         a_ssize s) = None
  /\ err_code (snd (tsk_img_open_utf8 b W num_img
                      (map Some (pre ++ p :: post)) type a_ssize s))
     = TSK_ERR_IMG_CONVERT
  /\ calls_between s
       (snd (tsk_img_open_utf8 b W num_img (map Some (pre ++ p :: post)) type
               a_ssize s))
       (map EvConvert (pre ++ [p]))
  /\ (exists old,
        err_msg (snd (tsk_img_open_utf8 b W num_img
                        (map Some (pre ++ p :: post)) type a_ssize s))
        = snprintf old (TSK_ERRSTR_L b)
            (convert_text p (fst (tsk_UTF8toUTF16 W p))))
  /\ (String.length (convert_text p (fst (tsk_UTF8toUTF16 W p)))
      < TSK_ERRSTR_L b ->
      contains p
        (err_msg (snd (tsk_img_open_utf8 b W num_img
                         (map Some (pre ++ p :: post)) type a_ssize s)))
      /\ contains (fmt_d (fst (tsk_UTF8toUTF16 W p)))
           (err_msg (snd (tsk_img_open_utf8 b W num_img
                            (map Some (pre ++ p :: post)) type a_ssize s)))).
Proof.
  intros Hwin Hm Hok Hbad Hn.
  remember (tsk_img_open_utf8 b W num_img (map Some (pre ++ p :: post)) type
              a_ssize s) as out eqn:Eo.
  unfold tsk_img_open_utf8 in Eo. rewrite Hwin in Eo.
  unfold bind at 1 in Eo. unfold call_silent at 1 in Eo.
  pose proof (Hm (sizeof_wchar_ptr b * num_img)%Z (glob s)) as Hg.
  destruct (tsk_malloc W _ (glob s)) as [ok g'] eqn:Em. simpl in Hg. subst ok.
  cbn [negb] in Eo. unfold bind at 1 in Eo.
  destruct (utf8_to_utf16_stops b W pre [] (Z.to_nat num_img) []
              (mkState g' (trace s)) p post Hm Hok Hbad ltac:(lia))
    as (s' & Erun & Htr & Hcode & old & Hmsg).
  cbn [app List.length] in Erun. rewrite Erun in Eo.
  subst out. cbn [fst snd ret].
  split; [reflexivity|]. split; [exact Hcode|].
  split; [exact Htr|]. split; [exists old; exact Hmsg|].
  intros Hfit. rewrite Hmsg, snprintf_fits by exact Hfit.
  unfold convert_text. split.
  - apply contains_app_l. apply contains_prefix.
  - apply contains_app_l. apply contains_app_l. apply contains_app_l.
    apply contains_refl.
Qed.

Lemma conversion_failure_is_CONVERT_witness :
  TSK_WIN32 Scenario.win32_full = true
  /\ fst (tsk_UTF8toUTF16 Scenario.quiet Scenario.bad_utf8)
     <> TSKconversionOK Scenario.win32_full
  /\ (Z.of_nat (List.length ["a.001"]) < 2)%Z
  /\ err_code (snd (tsk_img_open_utf8 Scenario.win32_full Scenario.quiet 2
                      (map Some (["a.001"] ++ Scenario.bad_utf8 :: []))
                      TSK_IMG_TYPE_DETECT 0 Scenario.start))
     = TSK_ERR_IMG_CONVERT
  /\ calls_between Scenario.start
       (snd (tsk_img_open_utf8 Scenario.win32_full Scenario.quiet 2
               (map Some (["a.001"] ++ Scenario.bad_utf8 :: []))
               TSK_IMG_TYPE_DETECT 0 Scenario.start))
       [EvConvert "a.001"; EvConvert Scenario.bad_utf8]
  /\ contains (fmt_d 3)
       (err_msg (snd (tsk_img_open_utf8 Scenario.win32_full Scenario.quiet 2
                        (map Some (["a.001"] ++ Scenario.bad_utf8 :: []))
                        TSK_IMG_TYPE_DETECT 0 Scenario.start))).
Proof.
  assert (H1 : TSK_WIN32 Scenario.win32_full = true) by reflexivity.
  assert (H2 : fst (tsk_UTF8toUTF16 Scenario.quiet Scenario.bad_utf8)
               <> TSKconversionOK Scenario.win32_full) by discriminate.
  assert (H3 : (Z.of_nat (List.length ["a.001"]) < 2)%Z) by reflexivity.
  assert (H4 : Forall (fun q => fst (tsk_UTF8toUTF16 Scenario.quiet q)
                                = TSKconversionOK Scenario.win32_full)
                 ["a.001"]).
  { constructor; [reflexivity | constructor]. }
  repeat (split; [assumption|]).
  pose proof (conversion_failure_is_CONVERT Scenario.win32_full Scenario.quiet
                2 ["a.001"] [] Scenario.bad_utf8 TSK_IMG_TYPE_DETECT 0
                Scenario.start H1 (fun _ _ => eq_refl) H4 H2 H3)
    as (_ & Hcode & Hcalls & _ & Hfit).
  split; [exact Hcode|]. split; [exact Hcalls|].
  apply Hfit. simpl. lia.
Defined.

(** C9 as stated fails for a long path.  With a path of 521 bytes that
    does not convert (status 3) and the 512-byte [tsk_errstr], the
    [CONVERT] message is cut inside the path: it holds neither the status
    nor the whole path. *)
Lemma convert_message_truncated_counterexample :
  fst (tsk_UTF8toUTF16 Scenario.quiet Scenario.long_bad_utf8) = 3%Z
  /\ err_code (snd (tsk_img_open_utf8 Scenario.win32_full Scenario.quiet 1
                      [Some Scenario.long_bad_utf8] TSK_IMG_TYPE_DETECT 0
                      Scenario.start))
     = TSK_ERR_IMG_CONVERT
  /\ ~ contains (fmt_d 3)
         (err_msg (snd (tsk_img_open_utf8 Scenario.win32_full Scenario.quiet 1
                          [Some Scenario.long_bad_utf8] TSK_IMG_TYPE_DETECT 0
                          Scenario.start)))
  /\ ~ contains Scenario.long_bad_utf8
         (err_msg (snd (tsk_img_open_utf8 Scenario.win32_full Scenario.quiet 1
                          [Some Scenario.long_bad_utf8] TSK_IMG_TYPE_DETECT 0
                          Scenario.start))).
Proof.
  split; [vm_compute; reflexivity|].
  split; [vm_compute; reflexivity|].
  split; apply not_contains; vm_compute; reflexivity.
Qed.

(** On a build other than [TSK_WIN32] the UTF-8 entry point is
    [tsk_img_open] itself. *)
Lemma tsk_img_open_utf8_unix {Sys : Type} (b : Build) (W : World Sys)
  num_img images type a_ssize :
  TSK_WIN32 b = false ->
  tsk_img_open_utf8 b W num_img images type a_ssize
  = tsk_img_open b W num_img images type a_ssize.
Proof.
  intros H. unfold tsk_img_open_utf8. now rewrite H.
Qed.

(** ** What every call does and never does *)

(** Case analysis along a whole run of [tsk_img_open]. *)
Ltac run_cases W :=
  unfold tsk_img_open, detect, detect_aff, detect_from_ewf, detect_ewf,
    detect_finish, detect_raw, detect_stat, open_as;
  unfold_m;
  repeat first
    [ oracle_step W
    | match goal with
      | |- context [if ?e then _ else _] => destruct e eqn:?; unfold_m
      | |- context [match ?t with TSK_IMG_TYPE_DETECT => _ | _ => _ end] =>
          destruct t; unfold_m
      end ].

Section EveryCall.

Context {Sys : Type}.
Variable b : Build.
Variable W : World Sys.

(** Whatever the arguments and the drivers, the calls that
    [tsk_img_open] makes carry the caller's path array, count and sector
    size unchanged; [raw_open] and [stat] get the first path; nothing is
    converted. *)
Theorem calls_pass_arguments num_img images type a_ssize (s : State Sys) :
  exists evs,
    calls_between s (snd (tsk_img_open b W num_img images type a_ssize s)) evs
    /\ Forall (passes_arguments num_img images a_ssize) evs.
Proof.
  unfold calls_between.
  run_cases W; cbn [snd trace]; rewrite <- ?app_assoc; cbn [app];
    first [ (exists []; split; [now rewrite app_nil_r | constructor])
          | (eexists; split; [reflexivity|];
             repeat constructor) ].
Qed.

Lemma is_AFF_ANY_eq (t : TSK_IMG_TYPE_ENUM) :
  is_AFF_ANY t = true -> t = TSK_IMG_TYPE_AFF_ANY.
Proof. destruct t; simpl; congruence. Qed.

(** Closing is confined to autodetection.  With a given type
    [tsk_img_open] closes nothing, whatever the outcome.  Under any type,
    a call that returns a handle has closed at most one handle, and one
    whose type is [TSK_IMG_TYPE_AFF_ANY]: the handles of an ambiguous
    match are closed on a path that returns none. *)
Theorem closing_is_confined num_img images type a_ssize (s : State Sys) :
  (type <> TSK_IMG_TYPE_DETECT ->
   exists evs,
     calls_between s (snd (tsk_img_open b W num_img images type a_ssize s)) evs
     /\ count is_close evs = 0)
  /\ (forall h,
        fst (tsk_img_open b W num_img images type a_ssize s) = Some h ->
        exists evs,
          calls_between s
            (snd (tsk_img_open b W num_img images type a_ssize s)) evs
          /\ Forall closes_only_any evs
          /\ count is_close evs <= 1).
Proof.
  unfold calls_between.
  run_cases W; cbn [fst snd trace]; rewrite <- ?app_assoc; cbn [app];
    (split;
     [ intros Hd;
       first [ (exfalso; apply Hd; reflexivity)
             | (exists []; split; [now rewrite app_nil_r | reflexivity])
             | (eexists; split; [reflexivity | reflexivity]) ]
     | intros h0 Hret; try discriminate Hret;
       (eexists; split; [reflexivity|]);
       (split; [repeat constructor; apply is_AFF_ANY_eq; assumption
               | cbv; lia]) ]).
Qed.

(** A call that returns no handle and leaves [tsk_errno] 0 was made with
    a given type, not with [TSK_IMG_TYPE_DETECT], and made exactly one
    call: the open of the driver that the switch has for that type (raw
    or split by the count for the two raw types, AFF for an AFF type with
    AFFLIB, EWF for the EWF type with LIBEWF), on the reset error record
    with the caller's arguments; that open returned [NULL], and the
    globals it left, with no error code, are those of the result.
    Autodetection and the validation never fail without a code. *)
Theorem failure_without_code num_img images type a_ssize (s : State Sys) :
  fst (tsk_img_open b W num_img images type a_ssize s) = None ->
  err_code (snd (tsk_img_open b W num_img images type a_ssize s)) = NO_ERROR ->
  type <> TSK_IMG_TYPE_DETECT
  /\ exists ev,
       calls_between s (snd (tsk_img_open b W num_img images type a_ssize s))
         [ev]
       /\ driver_call W ev (reset_glob (glob s))
          = Some (None, glob (snd (tsk_img_open b W num_img images type a_ssize s)))
       /\ ((type = TSK_IMG_TYPE_RAW_SING
            /\ ev = if (1 <? num_img)%Z
                    then EvSplitOpen num_img images a_ssize
                    else EvRawOpen (images_at images 0) a_ssize)
           \/ (type = TSK_IMG_TYPE_RAW_SPLIT
               /\ ev = if (num_img =? 1)%Z
                       then EvRawOpen (images_at images 0) a_ssize
                       else EvSplitOpen num_img images a_ssize)
           \/ (In type [TSK_IMG_TYPE_AFF_AFF; TSK_IMG_TYPE_AFF_AFD;
                        TSK_IMG_TYPE_AFF_AFM; TSK_IMG_TYPE_AFF_ANY]
               /\ HAVE_LIBAFFLIB b = true
               /\ ev = EvAffOpen images a_ssize)
           \/ (type = TSK_IMG_TYPE_EWF_EWF
               /\ HAVE_LIBEWF b = true
               /\ ev = EvEwfOpen num_img images a_ssize)).
Proof.
  unfold calls_between.
  run_cases W; cbn [fst snd trace glob]; intros Hret Hcode;
    try discriminate Hret; try discriminate Hcode;
    try (match goal with
         | H : is_set ?x = true |- _ => rewrite Hcode in H; discriminate H
         end);
    (split; [discriminate|]);
    eexists; (split; [reflexivity|]);
    (split;
     [ cbn [driver_call];
       match goal with H : _ = (None, _) |- _ => rewrite H end; reflexivity
     | first [ (left; split; reflexivity)
             | (right; left; split; reflexivity)
             | (right; right; left; repeat split; simpl; tauto)
             | (right; right; right; repeat split; reflexivity) ] ]).
Qed.

(** [tsk_img_open_sing] never reaches the split driver, whatever the type
    asked for: with its one path, autodetection falls back on [raw_open],
    and [TSK_IMG_TYPE_RAW_SPLIT] is opened by [raw_open] too. *)
Theorem open_sing_never_splits a_image type a_ssize (s : State Sys) :
  exists evs,
    calls_between s (snd (tsk_img_open_sing b W a_image type a_ssize s)) evs
    /\ forallb (fun e => negb (is_split e)) evs = true.
Proof.
  unfold calls_between, tsk_img_open_sing.
  unfold tsk_img_open, detect, detect_aff, detect_from_ewf, detect_ewf,
    detect_finish, detect_raw, detect_stat, open_as.
  change (1 =? 0)%Z with false. change (1 =? 1)%Z with true.
  change (1 <? 1)%Z with false.
  run_cases W; cbn [snd trace]; rewrite <- ?app_assoc; cbn [app];
    first [ (exists []; split; [now rewrite app_nil_r | reflexivity])
          | (eexists; split; reflexivity) ].
Qed.

(** What an earlier call left in the error record plays no part: the
    outcome of [tsk_img_open] is the same from any incoming [tsk_errno],
    [tsk_errstr] and [tsk_errstr2]. *)
Theorem stale_error_is_forgotten num_img images type a_ssize (s : State Sys)
  (e : ErrCtx) :
  tsk_img_open b W num_img images type a_ssize
    (mkState (mkGlob (sys (glob s)) e) (trace s))
  = tsk_img_open b W num_img images type a_ssize s.
Proof.
  unfold tsk_img_open.
  set (k := fun _ : unit => _).
  unfold bind, error_reset, modify_ectx, tsk_error_reset. reflexivity.
Qed.

(** Nothing is tried twice: one call of [tsk_img_open] opens AFF at most
    once, EWF at most once, one of raw and split at most once, and calls
    [stat] at most once. *)
Theorem nothing_is_retried num_img images type a_ssize (s : State Sys) :
  exists evs,
    calls_between s (snd (tsk_img_open b W num_img images type a_ssize s)) evs
    /\ count is_aff_open evs <= 1
    /\ count is_ewf_open evs <= 1
    /\ count is_raw_or_split evs <= 1
    /\ count is_stat evs <= 1.
Proof.
  unfold calls_between.
  run_cases W; cbn [snd trace]; rewrite <- ?app_assoc; cbn [app];
    first [ (exists []; split; [now rewrite app_nil_r | cbv; lia])
          | (eexists; split; [reflexivity | cbv; lia]) ].
Qed.

End EveryCall.

Lemma closing_is_confined_witness :
  fst (tsk_img_open Scenario.unix_full Scenario.aff_any 1 [Some "a.dd"]
         TSK_IMG_TYPE_DETECT 0 Scenario.start)
  = Some Scenario.raw_img
  /\ exists evs,
       calls_between Scenario.start
         (snd (tsk_img_open Scenario.unix_full Scenario.aff_any 1
                 [Some "a.dd"] TSK_IMG_TYPE_DETECT 0 Scenario.start)) evs
       /\ Forall closes_only_any evs
       /\ count is_close evs <= 1.
Proof.
  assert (H1 : fst (tsk_img_open Scenario.unix_full Scenario.aff_any 1
                      [Some "a.dd"] TSK_IMG_TYPE_DETECT 0 Scenario.start)
               = Some Scenario.raw_img) by reflexivity.
  split; [exact H1|].
  exact (proj2 (closing_is_confined Scenario.unix_full Scenario.aff_any 1
                  [Some "a.dd"] TSK_IMG_TYPE_DETECT 0 Scenario.start)
           Scenario.raw_img H1).
Defined.

Lemma failure_without_code_witness :
  fst (tsk_img_open Scenario.unix_full Scenario.quiet 1 [Some "a.dd"]
         TSK_IMG_TYPE_RAW_SING 0 Scenario.stale) = None
  /\ err_code (snd (tsk_img_open Scenario.unix_full Scenario.quiet 1
                      [Some "a.dd"] TSK_IMG_TYPE_RAW_SING 0 Scenario.stale))
     = NO_ERROR
  /\ TSK_IMG_TYPE_RAW_SING <> TSK_IMG_TYPE_DETECT.
Proof.
  assert (H1 : fst (tsk_img_open Scenario.unix_full Scenario.quiet 1
                      [Some "a.dd"] TSK_IMG_TYPE_RAW_SING 0 Scenario.stale)
               = None) by reflexivity.
  assert (H2 : err_code (snd (tsk_img_open Scenario.unix_full Scenario.quiet 1
                                [Some "a.dd"] TSK_IMG_TYPE_RAW_SING 0
                                Scenario.stale))
               = NO_ERROR) by reflexivity.
  repeat (split; [assumption|]).
  exact (proj1 (failure_without_code Scenario.unix_full Scenario.quiet 1
                  [Some "a.dd"] TSK_IMG_TYPE_RAW_SING 0 Scenario.stale H1 H2)).
Defined.

(** ** A given type *)

(** A type without a case in the switch of this build -- an AFF type
    without AFFLIB, the EWF type without LIBEWF, or an integer that is
    the value of no enumerator -- is turned down once the arguments have
    passed the validation: no handle, no call, the globals outside the
    error record untouched, the code [TSK_ERR_IMG_UNSUPTYPE], the type
    printed with [%d] as the message and an empty secondary message. *)
Theorem type_without_case_is_UNSUPTYPE {Sys : Type} (b : Build) (W : World Sys)
  (num_img : Z) (images : list TSK_TCHAR_ptr) (type : TSK_IMG_TYPE_ENUM)
  (a_ssize : N) (s : State Sys) :
  num_img <> 0%Z -> images_at images 0 <> None ->
  (a_ssize mod 512)%N = 0%N ->
  proper_type b type ->
  type <> TSK_IMG_TYPE_DETECT -> has_case b type = false ->
  tsk_img_open b W num_img images type a_ssize s
  = (None,
     mkState
       (mkGlob (sys (glob s))
          (mkErrCtx TSK_ERR_IMG_UNSUPTYPE
             (snprintf EmptyString (TSK_ERRSTR_L b) (fmt_d (type_as_int b type)))
             EmptyString))
       (trace s)).
Proof.
  intros Hn Hp Hs _ Hd Hc.
  rewrite tsk_img_open_validated by assumption.
  unfold open_as.
  destruct type; simpl in Hc; try discriminate Hc; try congruence;
    rewrite ?Hc; reflexivity.
Qed.

Lemma type_without_case_is_UNSUPTYPE_witness :
  (1 <> 0)%Z /\ images_at [Some "a.dd"] 0 <> None /\ (0 mod 512)%N = 0%N
  /\ proper_type Scenario.unix_full (TSK_IMG_TYPE_OTHER 99)
  /\ TSK_IMG_TYPE_OTHER 99 <> TSK_IMG_TYPE_DETECT
  /\ has_case Scenario.unix_full (TSK_IMG_TYPE_OTHER 99) = false
  /\ tsk_img_open Scenario.unix_full Scenario.only_raw 1 [Some "a.dd"]
       (TSK_IMG_TYPE_OTHER 99) 0 Scenario.stale
     = (None,
        mkState (mkGlob tt (mkErrCtx TSK_ERR_IMG_UNSUPTYPE "99" EmptyString))
                []).
Proof.
  assert (H1 : (1 <> 0)%Z) by discriminate.
  assert (H2 : images_at [Some "a.dd"] 0 <> None) by discriminate.
  assert (H3 : (0 mod 512)%N = 0%N) by reflexivity.
  assert (H4 : TSK_IMG_TYPE_OTHER 99 <> TSK_IMG_TYPE_DETECT) by discriminate.
  assert (H5 : has_case Scenario.unix_full (TSK_IMG_TYPE_OTHER 99) = false)
    by reflexivity.
  assert (H6 : proper_type Scenario.unix_full (TSK_IMG_TYPE_OTHER 99)).
  { repeat constructor; discriminate. }
  repeat (split; [assumption|]).
  exact (type_without_case_is_UNSUPTYPE Scenario.unix_full Scenario.only_raw
           1 [Some "a.dd"] (TSK_IMG_TYPE_OTHER 99) 0 Scenario.stale
           H1 H2 H3 H6 H4 H5).
Defined.

(** The EWF type in a build without LIBEWF. *)
Example ewf_type_without_library :
  tsk_img_open Scenario.unix_plain Scenario.only_ewf 1 [Some "a.E01"]
    TSK_IMG_TYPE_EWF_EWF 0 Scenario.stale
  = (None,
     mkState (mkGlob tt (mkErrCtx TSK_ERR_IMG_UNSUPTYPE "64" EmptyString)) []).
Proof. reflexivity. Qed.

(** With AFFLIB, each of the four AFF types -- the unspecified one
    included -- is the call [aff_open(images, a_ssize)] on the reset error
    record, and with LIBEWF the EWF type is the call
    [ewf_open(num_img, images, a_ssize)]: what the driver returns is
    returned as it is.  The handle is not closed and its type is not
    compared with the one asked for, and a failure keeps the error record
    the driver left. *)
Theorem library_type_is_one_call {Sys : Type} (b : Build) (W : World Sys)
  (num_img : Z) (images : list TSK_TCHAR_ptr) (type : TSK_IMG_TYPE_ENUM)
  (a_ssize : N) (s : State Sys) :
  num_img <> 0%Z -> images_at images 0 <> None ->
  (a_ssize mod 512)%N = 0%N ->
  (HAVE_LIBAFFLIB b = true ->
   In type [TSK_IMG_TYPE_AFF_AFF; TSK_IMG_TYPE_AFF_AFD;
            TSK_IMG_TYPE_AFF_AFM; TSK_IMG_TYPE_AFF_ANY] ->
   tsk_img_open b W num_img images type a_ssize s
   = (fst (aff_open W images a_ssize (reset_glob (glob s))),
      mkState (snd (aff_open W images a_ssize (reset_glob (glob s))))
              (trace s ++ [EvAffOpen images a_ssize])))
  /\ (HAVE_LIBEWF b = true -> type = TSK_IMG_TYPE_EWF_EWF ->
      tsk_img_open b W num_img images type a_ssize s
      = (fst (ewf_open W num_img images a_ssize (reset_glob (glob s))),
         mkState (snd (ewf_open W num_img images a_ssize (reset_glob (glob s))))
                 (trace s ++ [EvEwfOpen num_img images a_ssize]))).
Proof.
  intros Hn Hp Hs. split.
  - intros Ha Hin.
    rewrite tsk_img_open_validated by assumption.
    unfold open_as.
    simpl in Hin.
    destruct Hin as [<-|[<-|[<-|[<-|[]]]]]; rewrite Ha;
      unfold call, reset_state; cbn [glob trace];
      destruct (aff_open W images a_ssize (reset_glob (glob s)));
      reflexivity.
  - intros He ->.
    rewrite tsk_img_open_validated by assumption.
    unfold open_as. rewrite He.
    unfold call, reset_state; cbn [glob trace].
    destruct (ewf_open W num_img images a_ssize (reset_glob (glob s))).
    reflexivity.
Qed.

Lemma library_type_is_one_call_witness :
  (1 <> 0)%Z /\ images_at [Some "a.dd"] 0 <> None /\ (0 mod 512)%N = 0%N
  /\ HAVE_LIBAFFLIB Scenario.unix_full = true
  /\ tsk_img_open Scenario.unix_full Scenario.aff_any 1 [Some "a.dd"]
       TSK_IMG_TYPE_AFF_ANY 0 Scenario.stale
     = (Some Scenario.aff_any_img,
        mkState (mkGlob tt (mkErrCtx NO_ERROR EmptyString EmptyString))
                [EvAffOpen [Some "a.dd"] 0]).
Proof.
  assert (H1 : (1 <> 0)%Z) by discriminate.
  assert (H2 : images_at [Some "a.dd"] 0 <> None) by discriminate.
  assert (H3 : (0 mod 512)%N = 0%N) by reflexivity.
  do 4 (split; [first [assumption | reflexivity]|]).
  exact (proj1 (library_type_is_one_call Scenario.unix_full Scenario.aff_any
                  1 [Some "a.dd"] TSK_IMG_TYPE_AFF_ANY 0 Scenario.stale
                  H1 H2 H3)
           eq_refl (or_intror (or_intror (or_intror (or_introl eq_refl))))).
Defined.

(** A negative count is not turned down: only [num_img == 0] is tested.
    With a first path and a sector size that passes, such a count goes to
    [raw_open] under [TSK_IMG_TYPE_RAW_SING] and, as it is, to
    [split_open] under [TSK_IMG_TYPE_RAW_SPLIT]. *)
Theorem negative_count_reaches_driver {Sys : Type} (b : Build) (W : World Sys)
  (num_img : Z) (images : list TSK_TCHAR_ptr) (a_ssize : N) (s : State Sys) :
  (num_img < 0)%Z -> images_at images 0 <> None ->
  (a_ssize mod 512)%N = 0%N ->
  calls_between s
    (snd (tsk_img_open b W num_img images TSK_IMG_TYPE_RAW_SING a_ssize s))
    [EvRawOpen (images_at images 0) a_ssize]
  /\ calls_between s
       (snd (tsk_img_open b W num_img images TSK_IMG_TYPE_RAW_SPLIT a_ssize s))
       [EvSplitOpen num_img images a_ssize].
Proof.
  intros Hn Hp Hs.
  rewrite !tsk_img_open_validated by (try assumption; lia).
  unfold open_as, calls_between.
  destruct (Z.ltb_spec 1 num_img) as [H1|_]; [lia|].
  destruct (Z.eqb_spec num_img 1) as [H1|_]; [lia|].
  unfold call, reset_state. cbn [glob trace].
  destruct (raw_open W (images_at images 0) a_ssize (reset_glob (glob s))).
  destruct (split_open W num_img images a_ssize (reset_glob (glob s))).
  split; reflexivity.
Qed.

Lemma negative_count_reaches_driver_witness :
  (-1 < 0)%Z /\ images_at [Some "a.dd"] 0 <> None /\ (0 mod 512)%N = 0%N
  /\ calls_between Scenario.start
       (snd (tsk_img_open Scenario.unix_full Scenario.only_raw (-1)
               [Some "a.dd"] TSK_IMG_TYPE_RAW_SPLIT 0 Scenario.start))
       [EvSplitOpen (-1) [Some "a.dd"] 0].
Proof.
  assert (H1 : (-1 < 0)%Z) by reflexivity.
  assert (H2 : images_at [Some "a.dd"] 0 <> None) by discriminate.
  assert (H3 : (0 mod 512)%N = 0%N) by reflexivity.
  repeat (split; [assumption|]).
  exact (proj2 (negative_count_reaches_driver Scenario.unix_full
                  Scenario.only_raw (-1) [Some "a.dd"] 0 Scenario.start
                  H1 H2 H3)).
Defined.

Lemma raw_types_agree_witness :
  (0 <= 2)%Z
  /\ tsk_img_open Scenario.unix_full Scenario.only_raw 2
       [Some "a.001"; Some "a.002"] TSK_IMG_TYPE_RAW_SING 100 Scenario.stale
     = tsk_img_open Scenario.unix_full Scenario.only_raw 2
         [Some "a.001"; Some "a.002"] TSK_IMG_TYPE_RAW_SPLIT 100 Scenario.stale.
Proof.
  assert (H1 : (0 <= 2)%Z) by discriminate.
  split; [exact H1|].
  exact (raw_types_agree Scenario.unix_full Scenario.only_raw 2
           [Some "a.001"; Some "a.002"] 100 Scenario.stale H1).
Defined.

(** ** More on autodetection *)

(** In a build with both libraries, autodetection on validated arguments
    always probes AFF first and always goes on to probe EWF, whatever AFF
    answered: a match of AFF does not end the search. *)
Theorem both_probes_always_run {Sys : Type} (b : Build) (W : World Sys)
  (num_img : Z) (images : list TSK_TCHAR_ptr) (a_ssize : N) (s : State Sys) :
  num_img <> 0%Z -> images_at images 0 <> None ->
  (a_ssize mod 512)%N = 0%N ->
  HAVE_LIBAFFLIB b = true -> HAVE_LIBEWF b = true ->
  exists evs,
    calls_between s
      (snd (tsk_img_open b W num_img images TSK_IMG_TYPE_DETECT a_ssize s))
      (EvAffOpen images a_ssize :: evs)
    /\ In (EvEwfOpen num_img images a_ssize) evs.
Proof.
  intros Hn Hp Hs Ha He.
  rewrite tsk_img_open_validated by assumption.
  unfold calls_between, detect, detect_aff, detect_from_ewf, detect_ewf,
    detect_finish, detect_raw, detect_stat.
  rewrite Ha, He.
  run_cases W; cbn [snd trace]; rewrite <- ?app_assoc; cbn [app];
    (eexists; split; [reflexivity | simpl; tauto]).
Qed.

Lemma both_probes_always_run_witness :
  (1 <> 0)%Z /\ images_at [Some "a.aff"] 0 <> None /\ (0 mod 512)%N = 0%N
  /\ calls_between Scenario.start
       (snd (tsk_img_open Scenario.unix_full Scenario.only_aff 1
               [Some "a.aff"] TSK_IMG_TYPE_DETECT 0 Scenario.start))
       [EvAffOpen [Some "a.aff"] 0; EvEwfOpen 1 [Some "a.aff"] 0].
Proof.
  assert (H1 : (1 <> 0)%Z) by discriminate.
  assert (H2 : images_at [Some "a.aff"] 0 <> None) by discriminate.
  assert (H3 : (0 mod 512)%N = 0%N) by reflexivity.
  repeat (split; [assumption|]).
  destruct (both_probes_always_run Scenario.unix_full Scenario.only_aff 1
              [Some "a.aff"] 0 Scenario.start H1 H2 H3 eq_refl eq_refl)
    as (evs & Hc & _).
  reflexivity.
Defined.

(** When the AFF and EWF blocks end without a candidate, what the raw or
    split attempt gives is the outcome of the call, if it is a handle or
    if it left an error code: the handle is returned, or no handle with
    the error record exactly as the driver left it, and [stat] is not
    called.  One path goes to [raw_open], any other count to
    [split_open]. *)
Theorem fallback_outcome_is_returned {Sys : Type} (b : Build) (W : World Sys)
  (num_img : Z) (images : list TSK_TCHAR_ptr) (a_ssize : N)
  (s s2 : State Sys) (r : option TSK_IMG_INFO) (g3 : Glob Sys) :
  num_img <> 0%Z -> images_at images 0 <> None ->
  (a_ssize mod 512)%N = 0%N ->
  bind (detect_aff b W images a_ssize)
       (detect_ewf b W num_img images a_ssize) (reset_state s)
  = (inr None, s2) ->
  r <> None \/ tsk_errno (ectx g3) <> NO_ERROR ->
  (num_img = 1%Z ->
   raw_open W (images_at images 0) a_ssize (glob s2) = (r, g3) ->
   tsk_img_open b W num_img images TSK_IMG_TYPE_DETECT a_ssize s
   = (r, mkState g3 (trace s2 ++ [EvRawOpen (images_at images 0) a_ssize])))
  /\ (num_img <> 1%Z ->
      split_open W num_img images a_ssize (glob s2) = (r, g3) ->
      tsk_img_open b W num_img images TSK_IMG_TYPE_DETECT a_ssize s
      = (r, mkState g3 (trace s2 ++ [EvSplitOpen num_img images a_ssize]))).
Proof.
  intros Hn Hp Hs Hnon Hout.
  assert (E : tsk_img_open b W num_img images TSK_IMG_TYPE_DETECT a_ssize s
              = detect_raw b W num_img images a_ssize s2).
  { rewrite tsk_img_open_detect by assumption.
    unfold bind at 1. unfold bind in Hnon.
    destruct (detect_aff b W images a_ssize (reset_state s)) as [cand s1].
    unfold detect_from_ewf, bind. rewrite Hnon. reflexivity. }
  assert (Hset : r = None -> is_set (tsk_errno (ectx g3)) = true).
  { intros ->. destruct Hout as [H|H]; [congruence|].
    revert H. destruct (tsk_errno (ectx g3)); intros H; simpl; congruence. }
  rewrite E. unfold detect_raw. destruct s2 as [gs2 tr2]. cbn [glob trace].
  split; intros Hnum Hcall.
  - subst num_img. cbn [Z.eqb Pos.eqb].
    unfold bind at 1. unfold call. cbn [glob trace]. rewrite Hcall.
    destruct r as [h|]; [reflexivity|].
    unfold bind, get_tsk_errno. cbn [glob ectx].
    rewrite Hset by reflexivity. reflexivity.
  - apply Z.eqb_neq in Hnum. rewrite Hnum.
    unfold bind at 1. unfold call. cbn [glob trace]. rewrite Hcall.
    destruct r as [h|]; [reflexivity|].
    unfold bind, get_tsk_errno. cbn [glob ectx].
    rewrite Hset by reflexivity. reflexivity.
Qed.

Lemma fallback_outcome_is_returned_witness :
  (1 <> 0)%Z /\ images_at [Some "a.dd"] 0 <> None /\ (0 mod 512)%N = 0%N
  /\ tsk_img_open Scenario.unix_full Scenario.only_raw 1 [Some "a.dd"]
       TSK_IMG_TYPE_DETECT 0 Scenario.stale
     = (Some Scenario.raw_img,
        mkState (mkGlob tt (mkErrCtx NO_ERROR EmptyString EmptyString))
          ([EvAffOpen [Some "a.dd"] 0; EvEwfOpen 1 [Some "a.dd"] 0]
           ++ [EvRawOpen (images_at [Some "a.dd"] 0) 0])).
Proof.
  assert (H1 : (1 <> 0)%Z) by discriminate.
  assert (H2 : images_at [Some "a.dd"] 0 <> None) by discriminate.
  assert (H3 : (0 mod 512)%N = 0%N) by reflexivity.
  repeat (split; [assumption|]).
  refine (proj1 (fallback_outcome_is_returned Scenario.unix_full
                   Scenario.only_raw 1 [Some "a.dd"] 0 Scenario.stale
                   (mkState (mkGlob tt (mkErrCtx NO_ERROR EmptyString EmptyString))
                      [EvAffOpen [Some "a.dd"] 0; EvEwfOpen 1 [Some "a.dd"] 0])
                   (Some Scenario.raw_img)
                   (mkGlob tt (mkErrCtx NO_ERROR EmptyString EmptyString))
                   H1 H2 H3 eq_refl _) eq_refl eq_refl).
  left. discriminate.
Defined.

(** ** More on the UTF-8 entry point *)

Section Utf8Calls.

Context {Sys : Type}.
Variable b : Build.
Variable W : World Sys.

Lemma paths_from_S images i k :
  paths_from images i (S k)
  = c_str (images_at images i) :: paths_from images (S i) k.
Proof. reflexivity. Qed.

(** The loop records conversions only, of the paths in order from index
    [i]; it ends well only after [n] conversions that all returned
    [TSKconversionOK]. *)
Lemma utf8_to_utf16_calls images (n : nat) :
  forall (i : nat) (acc : list TSK_TCHAR_ptr) (s : State Sys) r s',
    utf8_to_utf16 b W n i images acc s = (r, s') ->
    exists k,
      k <= n
      /\ trace s' = (trace s ++ map EvConvert (paths_from images i k))%list
      /\ (r <> None ->
          k = n
          /\ Forall (fun p => fst (tsk_UTF8toUTF16 W p) = TSKconversionOK b)
               (paths_from images i n)).
Proof.
  induction n as [|n IH]; intros i acc s r s' Erun.
  - inversion Erun; subst. exists 0. split; [lia|]. split.
    + simpl. now rewrite app_nil_r.
    + intros _. split; [reflexivity | constructor].
  - cbn [utf8_to_utf16] in Erun.
    destruct s as [g tr]. unfold bind at 1 in Erun.
    unfold call_silent at 1 in Erun. cbn [glob trace] in Erun.
    destruct (tsk_malloc W _ g) as [[|] g'].
    + cbn [negb] in Erun. unfold bind at 1 in Erun. unfold call at 1 in Erun.
      cbn [glob trace fst snd] in Erun.
      destruct (Z.eqb_spec (fst (tsk_UTF8toUTF16 W (c_str (images_at images i))))
                  (TSKconversionOK b)) as [Hok|Hbad]; cbn [negb] in Erun.
      * destruct (IH _ _ _ _ _ Erun) as (k & Hk & Htr & Hall).
        exists (S k). split; [lia|]. split.
        -- rewrite Htr. cbn [trace]. rewrite paths_from_S. cbn [map].
           now rewrite <- app_assoc.
        -- intros Hsome. destruct (Hall Hsome) as (-> & Hf).
           split; [reflexivity|]. rewrite paths_from_S.
           constructor; assumption.
      * revert Erun. unfold_m. intros Erun. inversion Erun; subst.
        exists 1. split; [lia|]. split; [reflexivity|].
        intros H. congruence.
    + cbn [negb ret] in Erun. inversion Erun; subst.
      exists 0. split; [lia|]. split.
      * simpl. now rewrite app_nil_r.
      * intros H. congruence.
Qed.

End Utf8Calls.

(** In a [TSK_WIN32] build, [tsk_img_open_utf8] first converts paths, in
    the order of the array, and a driver is reached -- and a handle
    returned -- only after all [num_img] paths were converted with
    [TSKconversionOK]; nothing is converted after that. *)
Theorem utf8_converts_before_opening {Sys : Type} (b : Build) (W : World Sys)
  (num_img : Z) (images : list TSK_TCHAR_ptr) (type : TSK_IMG_TYPE_ENUM)
  (a_ssize : N) (s : State Sys) :
  TSK_WIN32 b = true ->
  exists k evs,
    calls_between s
      (snd (tsk_img_open_utf8 b W num_img images type a_ssize s))
      (map EvConvert (paths_from images 0 k) ++ evs)
    /\ k <= Z.to_nat num_img
    /\ forallb (fun e => negb (is_convert e)) evs = true
    /\ (evs <> []
        \/ fst (tsk_img_open_utf8 b W num_img images type a_ssize s) <> None ->
        k = Z.to_nat num_img
        /\ Forall (fun p => fst (tsk_UTF8toUTF16 W p) = TSKconversionOK b)
             (paths_from images 0 (Z.to_nat num_img))).
Proof.
  intros Hwin.
  remember (tsk_img_open_utf8 b W num_img images type a_ssize s) as out eqn:Eo.
  unfold tsk_img_open_utf8 in Eo. rewrite Hwin in Eo.
  unfold calls_between.
  destruct s as [g tr]. unfold bind at 1 in Eo. unfold call_silent at 1 in Eo.
  cbn [glob trace] in *.
  destruct (tsk_malloc W _ g) as [[|] g']; cbn [negb] in Eo.
  - unfold bind in Eo.
    destruct (utf8_to_utf16 b W (Z.to_nat num_img) 0 images [] (mkState g' tr))
      as [r s1] eqn:Erun.
    destruct (utf8_to_utf16_calls b W images _ _ _ _ _ _ Erun)
      as (k & Hk & Htr & Hall).
    cbn [trace] in Htr.
    destruct r as [images16|].
    + destruct (Hall ltac:(discriminate)) as (-> & Hf).
      destruct (calls_pass_arguments b W num_img images16 type a_ssize s1)
        as (evs & Hc & Hpass).
      exists (Z.to_nat num_img), evs. subst out. split.
      * unfold calls_between in Hc. rewrite Hc, Htr. now rewrite <- app_assoc.
      * split; [lia|]. split; [|intros _; split; [reflexivity | exact Hf]].
        clear - Hpass. induction Hpass as [|e evs He _ IH]; [reflexivity|].
        cbn [forallb]. rewrite IH. destruct e; simpl in *; tauto.
    + subst out. cbn [fst snd ret].
      exists k, []. split; [|split; [exact Hk|split; [reflexivity|]]].
      * rewrite app_nil_r. exact Htr.
      * intros [H|H]; congruence.
  - subst out. cbn [fst snd ret trace].
    exists 0, []. split; [|split; [lia|split; [reflexivity|]]].
    + simpl. now rewrite app_nil_r.
    + intros [H|H]; congruence.
Qed.

Lemma utf8_converts_before_opening_witness :
  TSK_WIN32 Scenario.win32_full = true
  /\ trace (snd (tsk_img_open_utf8 Scenario.win32_full Scenario.only_raw 2
                   [Some "a.001"; Some "a.002"] TSK_IMG_TYPE_RAW_SPLIT 0
                   Scenario.start))
     = [EvConvert "a.001"; EvConvert "a.002";
        EvSplitOpen 2 [Some "a.001"; Some "a.002"] 0].
Proof.
  split; [reflexivity|].
  destruct (utf8_converts_before_opening Scenario.win32_full Scenario.only_raw
              2 [Some "a.001"; Some "a.002"] TSK_IMG_TYPE_RAW_SPLIT 0
              Scenario.start eq_refl) as (k & evs & _).
  reflexivity.
Defined.

Section Utf8Pure.

Context {Sys : Type}.
Variable b : Build.
Variable W : World Sys.

(** Allocation succeeds and leaves the globals alone. *)
Hypothesis malloc_ok : forall sz g, tsk_malloc W sz g = (true, g).

(** With every path converting, the loop ends well: it hands back the
    converted paths in order and has recorded one conversion per path. *)
Lemma utf8_to_utf16_all (paths : list string) :
  forall (done acc : list TSK_TCHAR_ptr) (s : State Sys),
    Forall (fun q => fst (tsk_UTF8toUTF16 W q) = TSKconversionOK b) paths ->
    utf8_to_utf16 b W (List.length paths) (List.length done)
      (done ++ map Some paths) acc s
    = (Some (acc ++ map (fun q => Some (snd (tsk_UTF8toUTF16 W q))) paths)%list,
       mkState (glob s) (trace s ++ map EvConvert paths)).
Proof.
  induction paths as [|q paths IH]; intros done acc s Hok.
  - simpl. rewrite !app_nil_r. destruct s; reflexivity.
  - cbn [List.length utf8_to_utf16 map].
    rewrite images_at_middle. cbn [c_str].
    destruct s as [g tr]. unfold bind at 1. unfold call_silent at 1.
    cbn [glob trace]. rewrite malloc_ok. cbn [negb].
    unfold bind at 1. unfold call at 1. cbn [glob trace fst snd].
    inversion Hok as [|q' paths' Hq Hrest]; subst.
    rewrite Hq, Z.eqb_refl. cbn [negb].
    replace (S (List.length done)) with (List.length (done ++ [Some q]))
      by (rewrite length_app; simpl; lia).
    replace (done ++ Some q :: map Some paths)%list
      with ((done ++ [Some q]) ++ map Some paths)%list
      by (now rewrite <- app_assoc).
    rewrite IH by exact Hrest. cbn [glob trace].
    now rewrite <- !app_assoc.
Qed.

(** The loop on a path that does not convert: the error code and the
    primary message are written over the incoming error record, whose
    secondary message stays. *)
Lemma utf8_to_utf16_stops_keeping (pre : list string) :
  forall (done : list TSK_TCHAR_ptr) (n : nat) (acc : list TSK_TCHAR_ptr)
         (s : State Sys) (p : string) (post : list string),
    Forall (fun q => fst (tsk_UTF8toUTF16 W q) = TSKconversionOK b) pre ->
    fst (tsk_UTF8toUTF16 W p) <> TSKconversionOK b ->
    List.length pre < n ->
    utf8_to_utf16 b W n (List.length done)
      (done ++ map Some (pre ++ p :: post)) acc s
    = (None,
       mkState
         (mkGlob (sys (glob s))
            (mkErrCtx TSK_ERR_IMG_CONVERT
               (snprintf (err_msg s) (TSK_ERRSTR_L b)
                  (convert_text p (fst (tsk_UTF8toUTF16 W p))))
               (err_msg2 s)))
         (trace s ++ map EvConvert (pre ++ [p]))).
Proof.
  induction pre as [|q pre IH]; intros done n acc s p post Hok Hbad Hn.
  - destruct n as [|n]; [simpl in Hn; lia|].
    cbn [utf8_to_utf16 app map].
    rewrite images_at_middle. cbn [c_str].
    destruct s as [g tr]. unfold bind at 1. unfold call_silent at 1.
    cbn [glob trace]. rewrite malloc_ok. cbn [negb].
    unfold bind at 1. unfold call at 1. cbn [glob trace fst snd].
    apply Z.eqb_neq in Hbad. rewrite Hbad. cbn [negb].
    unfold convert_text. unfold_m. reflexivity.
  - destruct n as [|n]; [simpl in Hn; lia|].
    cbn [utf8_to_utf16 app map].
    rewrite images_at_middle. cbn [c_str].
    destruct s as [g tr]. unfold bind at 1. unfold call_silent at 1.
    cbn [glob trace]. rewrite malloc_ok. cbn [negb].
    unfold bind at 1. unfold call at 1. cbn [glob trace fst snd].
    inversion Hok as [|q' pre' Hq Hpre]; subst.
    rewrite Hq, Z.eqb_refl. cbn [negb].
    replace (S (List.length done)) with (List.length (done ++ [Some q]))
      by (rewrite length_app; simpl; lia).
    replace (done ++ Some q :: map Some (pre ++ p :: post))%list
      with ((done ++ [Some q]) ++ map Some (pre ++ p :: post))%list
      by (now rewrite <- app_assoc).
    rewrite IH by (try assumption; simpl in Hn; lia).
    unfold err_msg, err_msg2. cbn [glob trace].
    now rewrite <- !app_assoc.
Qed.

End Utf8Pure.

(** In a [TSK_WIN32] build, with allocations that succeed, when all
    [num_img] paths convert, [tsk_img_open_utf8] is [tsk_img_open] on the
    converted paths, in the same order, with the same count, type and
    sector size, made after one conversion per path. *)
Theorem utf8_opens_converted_paths {Sys : Type} (b : Build) (W : World Sys)
  (num_img : Z) (paths : list string) (type : TSK_IMG_TYPE_ENUM)
  (a_ssize : N) (s : State Sys) :
  TSK_WIN32 b = true ->
  (forall sz g, tsk_malloc W sz g = (true, g)) ->
  Forall (fun q => fst (tsk_UTF8toUTF16 W q) = TSKconversionOK b) paths ->
  num_img = Z.of_nat (List.length paths) ->
  tsk_img_open_utf8 b W num_img (map Some paths) type a_ssize s
  = tsk_img_open b W num_img
      (map (fun q => Some (snd (tsk_UTF8toUTF16 W q))) paths) type a_ssize
      (mkState (glob s) (trace s ++ map EvConvert paths)).
Proof.
  intros Hwin Hm Hok ->.
  unfold tsk_img_open_utf8. rewrite Hwin.
  unfold bind at 1. unfold call_silent at 1. rewrite Hm. cbn [negb].
  unfold bind at 1. rewrite Nat2Z.id.
  pose proof (utf8_to_utf16_all b W Hm paths [] []
                (mkState (glob s) (trace s)) Hok) as E.
  cbn [app List.length glob trace] in E. rewrite E. reflexivity.
Qed.

Lemma utf8_opens_converted_paths_witness :
  TSK_WIN32 Scenario.win32_full = true
  /\ 2%Z = Z.of_nat (List.length ["a.001"; "a.002"])
  /\ fst (tsk_img_open_utf8 Scenario.win32_full Scenario.only_raw 2
            (map Some ["a.001"; "a.002"]) TSK_IMG_TYPE_DETECT 0 Scenario.start)
     = Some Scenario.split_img.
Proof.
  assert (H4 : Forall (fun q => fst (tsk_UTF8toUTF16 Scenario.only_raw q)
                                = TSKconversionOK Scenario.win32_full)
                 ["a.001"; "a.002"]).
  { repeat constructor. }
  do 2 (split; [reflexivity|]).
  rewrite (utf8_opens_converted_paths Scenario.win32_full Scenario.only_raw 2
             ["a.001"; "a.002"] TSK_IMG_TYPE_DETECT 0 Scenario.start
             eq_refl (fun _ _ => eq_refl) H4 eq_refl).
  reflexivity.
Defined.

(** [tsk_img_open_utf8] does not reset the error record before it
    converts.  In a [TSK_WIN32] build, with allocations that succeed, a
    path that does not convert leaves [TSK_ERR_IMG_CONVERT] and its
    message, but the secondary message is still the one the caller came in
    with; nothing else of the globals has changed. *)
Theorem convert_failure_keeps_secondary {Sys : Type} (b : Build) (W : World Sys)
  (num_img : Z) (pre post : list string) (p : string)
  (type : TSK_IMG_TYPE_ENUM) (a_ssize : N) (s : State Sys) :
  TSK_WIN32 b = true ->
  (forall sz g, tsk_malloc W sz g = (true, g)) ->
  Forall (fun q => fst (tsk_UTF8toUTF16 W q) = TSKconversionOK b) pre ->
  fst (tsk_UTF8toUTF16 W p) <> TSKconversionOK b ->
  (Z.of_nat (List.length pre) < num_img)%Z ->
  glob (snd (tsk_img_open_utf8 b W num_img (map Some (pre ++ p :: post)) type
               a_ssize s))
  = mkGlob (sys (glob s))
      (mkErrCtx TSK_ERR_IMG_CONVERT
         (snprintf (err_msg s) (TSK_ERRSTR_L b)
            (convert_text p (fst (tsk_UTF8toUTF16 W p))))
         (err_msg2 s)).
Proof.
  intros Hwin Hm Hok Hbad Hn.
  unfold tsk_img_open_utf8. rewrite Hwin.
  unfold bind at 1. unfold call_silent at 1. rewrite Hm. cbn [negb].
  unfold bind at 1.
  pose proof (utf8_to_utf16_stops_keeping b W Hm pre [] (Z.to_nat num_img) []
                (mkState (glob s) (trace s)) p post Hok Hbad ltac:(lia)) as E.
  cbn [app List.length] in E. rewrite E. reflexivity.
Qed.

Lemma convert_failure_keeps_secondary_witness :
  TSK_WIN32 Scenario.win32_full = true
  /\ fst (tsk_UTF8toUTF16 Scenario.quiet Scenario.bad_utf8)
     <> TSKconversionOK Scenario.win32_full
  /\ (Z.of_nat (List.length (@nil string)) < 1)%Z
  /\ err_msg2 (snd (tsk_img_open_utf8 Scenario.win32_full Scenario.quiet 1
                      (map Some ([] ++ Scenario.bad_utf8 :: []))
                      TSK_IMG_TYPE_DETECT 0 Scenario.stale))
     = "older".
Proof.
  assert (H1 : TSK_WIN32 Scenario.win32_full = true) by reflexivity.
  assert (H2 : fst (tsk_UTF8toUTF16 Scenario.quiet Scenario.bad_utf8)
               <> TSKconversionOK Scenario.win32_full) by discriminate.
  assert (H3 : (Z.of_nat (List.length (@nil string)) < 1)%Z) by reflexivity.
  repeat (split; [assumption|]).
  unfold err_msg2.
  rewrite (convert_failure_keeps_secondary Scenario.win32_full Scenario.quiet
             1 [] [] Scenario.bad_utf8 TSK_IMG_TYPE_DETECT 0 Scenario.stale
             H1 (fun _ _ => eq_refl) (Forall_nil _) H2 H3).
  reflexivity.
Defined.
